(** * pydax [_extractors.py]: dataset unarchiving and uncompressing

    A shallow embedding of [pydax/_extractors.py] and the properties of its
    extractor dispatch, its tar extractor and the manifest the latter writes.

    The module talks to the outside through the Python standard library
    ([mimetypes], [tarfile], [json], [open], [print]).  Those calls are the
    fields of a [Host]; the functions of the module are written once, over
    any host, in a monad that threads the host's world, may raise a Python
    exception and records what was done.  [RefHost], at the end of the
    definitions, is a small file system on which the module runs on
    concrete inputs. *)

From Stdlib Require Import ZArith String Ascii List Bool Lia.
From stdpp Require Import base strings gmap pretty.
Import ListNotations.

#[local] Set Warnings "-clear-no-such-hyp".

Local Open Scope string_scope.
Local Open Scope list_scope.

(** ** Python values *)

(** Instances of [Exception]: what a [raise] in the module or in the
    library throws and what [except Exception] catches. *)
Inductive exn : Type :=
  | ReadError (msg : string)              (* tarfile.ReadError *)
  | TypeError (msg : string)
  | ValueError (msg : string)
  | KeyError (key : string)
  | RuntimeError (msg : string)
  | OtherException (cls msg : string).    (* OSError and the rest, by class name *)

(** [str(e)] as the f-string of [tar_extractor] formats it. *)
Definition exn_str (e : exn) : string :=
  match e with
  | ReadError msg | TypeError msg | ValueError msg | RuntimeError msg => msg
  | KeyError key => key
  | OtherException _ msg => msg
  end.

Definition is_ReadError (e : exn) : bool :=
  match e with ReadError _ => true | _ => false end.

(** A [dict] keeps its keys in insertion order; assigning to a key that is
    present replaces the value where the key already stands. *)
Definition pydict (V : Type) : Type := list (string * V).

Fixpoint dict_set {V} (k : string) (v : V) (d : pydict V) : pydict V :=
  match d with
  | [] => [(k, v)]
  | (k', v') :: d' =>
      if String.eqb k k' then (k, v) :: d' else (k', v') :: dict_set k v d'
  end.

Fixpoint dict_get {V} (k : string) (d : pydict V) : option V :=
  match d with
  | [] => None
  | (k', v') :: d' => if String.eqb k k' then Some v' else dict_get k d'
  end.

Definition dict_keys {V} (d : pydict V) : list string := map fst d.
Definition dict_values {V} (d : pydict V) : list V := map snd d.

(** [{**a, **b}] *)
Definition dict_merge {V} (a b : pydict V) : pydict V :=
  fold_left (fun d kv => dict_set (fst kv) (snd kv) d) b a.

(** [key in d.keys()] and [d.get(key, default)] for a key that is a [str]
    or [None]; the dicts of this module have [str] keys only. *)
Definition key_in {V} (key : option string) (d : pydict V) : bool :=
  match key with
  | Some k => bool_decide (is_Some (dict_get k d))
  | None => false
  end.

Definition dict_get_or {V} (key : option string) (d : pydict V)
    (default : option V) : option V :=
  match key with
  | Some k => match dict_get k d with Some v => Some v | None => default end
  | None => default
  end.

(** ** [tarfile.TarInfo] *)

(** The three attributes [tar_extractor] reads. [type] is a [bytes] of
    length one, the type flag of the header. *)
Record TarInfo : Type := {
  name : string;
  type : ascii;
  size : Z
}.

(** [tarfile.REGULAR_TYPES]: [b'0'], [b'\0'], [b'7'] and [b'S']. *)
Definition REGULAR_TYPES : list ascii :=
  ["0"%char; "000"%char; "7"%char; "S"%char].

Definition isreg (member : TarInfo) : bool :=
  existsb (Ascii.eqb (type member)) REGULAR_TYPES.

(** [int(b)] for a [bytes] of length one: the digit, or [ValueError]. *)
Definition py_int (b : ascii) : exn + Z :=
  let n := N_of_ascii b in
  if (48 <=? n)%N && (n <=? 57)%N then inr (Z.of_N n - 48)%Z
  else inl (ValueError ("invalid literal for int() with base 10: " ++ String b EmptyString)).

(** The value of [members]: member name to [{'type': .., 'size': ..}]. *)
Definition manifest : Type := pydict (pydict Z).

(** ** The monad of the module *)

(** A run ends in a value or an exception, leaves a world and a trace. *)
Record run (W E A : Type) : Type := Run {
  val : exn + A;
  world : W;
  trace : list E
}.
Arguments Run {W E A}.
Arguments val {W E A}.
Arguments world {W E A}.
Arguments trace {W E A}.

Definition M (W E A : Type) : Type := W -> run W E A.

Definition ret {W E A} (a : A) : M W E A :=
  fun w => Run (inr a) w [].

Definition raise {W E A} (e : exn) : M W E A :=
  fun w => Run (inl e) w [].

Definition bind {W E A B} (c : M W E A) (k : A -> M W E B) : M W E B :=
  fun w =>
    match c w with
    | Run (inl e) w1 t => Run (inl e) w1 t
    | Run (inr a) w1 t =>
        match k a w1 with
        | Run v w2 t' => Run v w2 (t ++ t')
        end
    end.

Notation "x <~ c ;; k" := (bind c (fun x => k))
  (at level 100, c at next level, right associativity).
Notation "c ;;; k" := (bind c (fun _ => k))
  (at level 100, right associativity).

(** [try: c  except cls as e: h e] for the exceptions [catches] selects. *)
Definition try_except {W E A} (c : M W E A) (catches : exn -> bool)
    (h : exn -> M W E A) : M W E A :=
  fun w =>
    match c w with
    | Run (inl e) w1 t =>
        if catches e then
          match h e w1 with
          | Run v w2 t' => Run v w2 (t ++ t')
          end
        else Run (inl e) w1 t
    | Run (inr a) w1 t => Run (inr a) w1 t
    end.

(** [with cm: body], for a context manager whose [__exit__] closes and
    lets the exception of the body through: [exit] runs on both ways out,
    and an exception of its own takes over. *)
Definition with_ {W E A} (exit : M W E unit) (body : M W E A) : M W E A :=
  fun w =>
    match body w with
    | Run v w1 t =>
        match exit w1 with
        | Run (inl e) w2 t' => Run (inl e) w2 (t ++ t')
        | Run (inr _) w2 t' => Run v w2 (t ++ t')
        end
    end.

Definition succeeded {A} (v : exn + A) : bool :=
  match v with inr _ => true | inl _ => false end.

Definition error_of {A} (v : exn + A) : option exn :=
  match v with inl e => Some e | inr _ => None end.

(** ** The host: the standard library under the module *)

(** What the module does to the outside, one constructor per library call,
    with the exception the call raised, if any. *)
Inductive effect : Type :=
  | Print (line : string)
  | TarOpen (path : string) (err : option exn)
  | GetMembers (res : exn + list TarInfo)
  | OpenW (file : string) (err : option exn)
  | JsonDump (file : string) (doc : manifest) (err : option exn)
  | ExtractAll (data_dir : string) (err : option exn)
  | TarExit (err : option exn)
  | FileExit (file : string) (err : option exn).

Record Host : Type := {
  World : Type;
  TarFile : Type;                         (* an open tarfile.TarFile *)
  TextFile : Type;                        (* a text file open for writing *)
  (* mimetypes.guess_type(path): reads the name, not the file *)
  guess_type : string -> option string * option string;
  print : string -> World -> World;
  (* tarfile.open(path) *)
  tarfile_open : string -> World -> (exn + TarFile) * World;
  (* tar.getmembers() *)
  getmembers : TarFile -> World -> (exn + list TarInfo) * World;
  (* tar.extractall(path=data_dir) *)
  extractall : TarFile -> string -> World -> (exn + unit) * World;
  tarfile_exit : TarFile -> World -> (exn + unit) * World;
  (* open(file, mode='w') *)
  open_w : string -> World -> (exn + TextFile) * World;
  (* json.dump(doc, f, indent=2) *)
  json_dump : manifest -> TextFile -> World -> (exn + unit) * World;
  textfile_exit : TextFile -> World -> (exn + unit) * World
}.

Section Module_extractors.

Context (H : Host).

#[local] Abbreviation W := (World H).

(** A library call as a step of the monad, leaving its [effect]. *)
Definition host_call {A} (op : W -> (exn + A) * W)
    (ev : exn + A -> effect) : M W effect A :=
  fun w => let '(v, w') := op w in Run v w' [ev v].

Definition do_print (line : string) : M W effect unit :=
  fun w => Run (inr tt) (print H line w) [Print line].

(** ** [tar_extractor] *)

(** The body of the [for member in tar.getmembers()] loop. *)
Definition record_member (member : TarInfo) (members : manifest)
    : exn + manifest :=
  match py_int (type member) with
  | inl e => inl e
  | inr t =>
      let members := dict_set (name member) [("type", t)] members in
      if isreg member then
        match dict_get (name member) members with
        | Some entry =>
            inr (dict_set (name member) (dict_set "size" (size member) entry) members)
        | None => inl (KeyError (name member))
        end
      else inr members
  end.

Fixpoint for_members (ms : list TarInfo) (members : manifest)
    : exn + manifest :=
  match ms with
  | [] => inr members
  | member :: rest =>
      match record_member member members with
      | inl e => inl e
      | inr members' => for_members rest members'
      end
  end.

Definition lift {A} (v : exn + A) : M W effect A :=
  fun w => Run v w [].

Definition dquote : string := String "034"%char EmptyString.
Definition newline : string := String "010"%char EmptyString.

(** [f'Failed to unarchive "{path}"\ncaused by:\n{e}'] *)
Definition unarchive_message (path : string) (e : exn) : string :=
  "Failed to unarchive " ++ dquote ++ path ++ dquote ++ newline
    ++ "caused by:" ++ newline ++ exn_str e.

Definition tar_extractor_body (path data_dir file_list_file : string)
    : M W effect unit :=
  do_print "1: tar" ;;;
  tar <~ try_except
           (host_call (tarfile_open H path) (fun v => TarOpen path (error_of v)))
           is_ReadError
           (fun e => raise (ReadError (unarchive_message path e))) ;;
  with_ (host_call (tarfile_exit H tar) (fun v => TarExit (error_of v)))
    (ms <~ host_call (getmembers H tar) GetMembers ;;
     members <~ lift (for_members ms []) ;;
     (f <~ host_call (open_w H file_list_file)
             (fun v => OpenW file_list_file (error_of v)) ;;
      with_ (host_call (textfile_exit H f)
               (fun v => FileExit file_list_file (error_of v)))
        (host_call (json_dump H members f)
           (fun v => JsonDump file_list_file members (error_of v)))) ;;;
     host_call (extractall H tar data_dir)
       (fun v => ExtractAll data_dir (error_of v))).

(** ** Functions as values *)

(** A [def] of the module, as the dispatcher holds it in a dict:
    its name, its positional parameters, its body over the arguments. *)
Record pyfun : Type := {
  fn_name : string;
  fn_params : list string;
  fn_body : list string -> M W effect unit
}.

Definition plural (n : nat) (one many : string) : string :=
  if Nat.eqb n 1 then one else many.

(** Calling [f] on [args]: the arguments are bound to the parameters before the
    body starts, and a wrong count raises [TypeError] with nothing run. *)
Definition call (f : pyfun) (args : list string) : M W effect unit :=
  let takes := length (fn_params f) in
  let given := length args in
  if Nat.eqb given takes then fn_body f args
  else if Nat.ltb takes given then
    raise (TypeError (fn_name f ++ "() takes " ++ pretty takes
      ++ plural takes " positional argument" " positional arguments"
      ++ " but " ++ pretty given ++ plural given " was" " were" ++ " given"))
  else
    raise (TypeError (fn_name f ++ "() missing " ++ pretty (takes - given)
      ++ " required positional " ++ plural (takes - given) "argument" "arguments")).

Definition tar_extractor : pyfun := {|
  fn_name := "tar_extractor";
  fn_params := ["path"; "data_dir"; "file_list_file"];
  fn_body := fun args =>
    match args with
    | [path; data_dir; file_list_file] =>
        tar_extractor_body path data_dir file_list_file
    | _ => ret tt
    end
|}.

Definition zip_extractor : pyfun := {|
  fn_name := "zip_extractor";
  fn_params := ["path"];
  fn_body := fun _ => do_print "1: zip"
|}.

Definition gzip_extractor : pyfun := {|
  fn_name := "gzip_extractor";
  fn_params := ["path"];
  fn_body := fun _ => do_print "2: gzip"
|}.

Definition bzip2_extractor : pyfun := {|
  fn_name := "bzip2_extractor";
  fn_params := ["path"];
  fn_body := fun _ => do_print "2: bzip2"
|}.

Definition lzma_extractor : pyfun := {|
  fn_name := "lzma_extractor";
  fn_params := ["path"];
  fn_body := fun _ => do_print "2: lzma"
|}.

Definition archives : pydict pyfun :=
  [("application/x-tar", tar_extractor); ("application/zip", zip_extractor)].

Definition compressions : pydict pyfun :=
  [("gzip", gzip_extractor); ("bzip2", bzip2_extractor); ("xz", lzma_extractor)].

(** ** [extract_data_files] *)

(** One extractor call of the dispatcher, as the run records it. *)
Record attempt : Type := {
  callee : string;
  io : list effect;
  outcome : option exn
}.

(** [try: extractor(path, data_dir, file_list_file)
     except Exception: pass
     else: return]
    The value says whether the [else] branch returned. *)
Definition record_of (extractor : pyfun) (r : run W effect unit) : attempt :=
  {| callee := fn_name extractor; io := trace r; outcome := error_of (val r) |}.

Definition try_extractor (extractor : pyfun) (args : list string)
    : M W attempt bool :=
  fun w =>
    let r := call extractor args w in
    Run (inr (succeeded (val r))) (world r) [record_of extractor r].

(** The same around the value of [extractor_map.get(..)], which Python
    lets be [None]: calling [None] raises [TypeError], caught as well. *)
Definition try_maybe (extractor : option pyfun) (args : list string)
    : M W attempt bool :=
  match extractor with
  | Some f => try_extractor f args
  | None => ret false
  end.

(** [for extractor in extractor_map.values(): try .. else: return] *)
Fixpoint sweep (extractors : list pyfun) (args : list string)
    : M W attempt bool :=
  match extractors with
  | [] => ret false
  | extractor :: rest =>
      returned <~ try_extractor extractor args ;;
      if returned then ret true else sweep rest args
  end.

Definition extractor_map : pydict pyfun := dict_merge archives compressions.

(** The extractor line 105 picks, when the test of line 103 holds. *)
Definition hinted (path : string) : option (option pyfun) :=
  let '(ftype, fencoding) := guess_type H path in
  if existsb (fun key => key_in key extractor_map) [ftype; fencoding]
  then Some (dict_get_or ftype extractor_map
               (dict_get_or fencoding extractor_map None))
  else None.

(** Step 1, lines 103 to 111. *)
Definition hinted_attempt (path : string) (args : list string)
    : M W attempt bool :=
  match hinted path with
  | Some extractor => try_maybe extractor args
  | None => ret false
  end.

Definition extract_data_files (path data_dir file_list_file : string)
    : M W attempt unit :=
  let args := [path; data_dir; file_list_file] in
  returned <~ hinted_attempt path args ;;
  if returned then ret tt else
  returned <~ sweep (dict_values extractor_map) args ;;
  if returned then ret tt else
  raise (RuntimeError "Filetype not supported").

(** The four extractors that are declared with one parameter. *)
Definition stubs : list pyfun :=
  [zip_extractor; gzip_extractor; bzip2_extractor; lzma_extractor].

(** The attempt of a stub called with three arguments. *)
Definition refused (extractor : pyfun) : attempt :=
  {| callee := fn_name extractor; io := [];
     outcome := Some (TypeError (fn_name extractor
                  ++ "() takes 1 positional argument but 3 were given")) |}.

(** An attempt some extractor of [extractors] made on [args]. *)
Definition made_by (extractors : list pyfun) (args : list string)
    (a : attempt) : Prop :=
  exists extractor w,
    extractor ∈ extractors /\ a = record_of extractor (call extractor args w).

End Module_extractors.

Arguments fn_name {H}.
Arguments fn_params {H}.
Arguments fn_body {H}.
Arguments tar_extractor_body : simpl never.

(** ** A reference host *)

(** A flat file system: a path holds a directory or a file, and a file is
    known by what the library makes of its bytes. *)
Module RefHost.

Inductive content : Type :=
  | TarBytes (members : list TarInfo)     (* a tar archive with these headers *)
  | JsonText (doc : manifest)             (* the text json.dump wrote *)
  | Text (s : string).                    (* anything else *)

Inductive node : Type :=
  | Dir
  | File (c : content).

Record world : Type := {
  fs : gmap string node;
  stdout : list string
}.

Definition ends_with (suffix s : string) : bool :=
  let n := String.length s in
  let k := String.length suffix in
  Nat.leb k n && String.eqb (String.substring (n - k) k s) suffix.

Definition drop_suffix (suffix s : string) : string :=
  String.substring 0 (String.length s - String.length suffix) s.

(** [mimetypes.guess_type] on the extensions this module has a use for:
    the encoding suffix comes off first, the type is read from what is
    left; [.tgz] stands for [.tar.gz]. An extension that is not listed
    gives [None] here; the types the library has for some of those are no
    keys of the registry either. *)
Definition media_type (base : string) : option string :=
  if ends_with ".tar" base then Some "application/x-tar"
  else if ends_with ".zip" base then Some "application/zip"
  else if ends_with ".csv" base then Some "text/csv"
  else if ends_with ".txt" base then Some "text/plain"
  else None.

Definition mime (path : string) : option string * option string :=
  if ends_with ".tgz" path then (Some "application/x-tar", Some "gzip")
  else if ends_with ".gz" path then (media_type (drop_suffix ".gz" path), Some "gzip")
  else if ends_with ".bz2" path then (media_type (drop_suffix ".bz2" path), Some "bzip2")
  else if ends_with ".xz" path then (media_type (drop_suffix ".xz" path), Some "xz")
  else (media_type path, None).

Definition os_error (cls what path : string) : exn :=
  OtherException cls (what ++ ": '" ++ path ++ "'").

Definition ref_open (path : string) (w : world)
    : (exn + list TarInfo) * world :=
  match fs w !! path with
  | None => (inl (os_error "FileNotFoundError" "[Errno 2] No such file or directory" path), w)
  | Some Dir => (inl (os_error "IsADirectoryError" "[Errno 21] Is a directory" path), w)
  | Some (File (TarBytes members)) => (inr members, w)
  | Some (File _) => (inl (ReadError "file could not be opened successfully"), w)
  end.

Definition join (dir name : string) : string := dir ++ "/" ++ name.

Definition extracted (member : TarInfo) : node :=
  if Ascii.eqb (type member) "5"%char then Dir else File (Text EmptyString).

(** Members land under [data_dir] one after the other; a [data_dir] that
    is a regular file stops the first of them. *)
Definition ref_extractall (tar : list TarInfo) (data_dir : string) (w : world)
    : (exn + unit) * world :=
  match tar, fs w !! data_dir with
  | member :: _, Some (File _) =>
      (inl (os_error "NotADirectoryError" "[Errno 20] Not a directory"
              (join data_dir (name member))), w)
  | _, _ =>
      (inr tt,
       {| fs := fold_left
                  (fun m member =>
                     <[join data_dir (name member) := extracted member]>
                       (<[data_dir := Dir]> m))
                  tar (fs w);
          stdout := stdout w |})
  end.

Definition ref_open_w (file : string) (w : world) : (exn + string) * world :=
  match fs w !! file with
  | Some Dir => (inl (os_error "IsADirectoryError" "[Errno 21] Is a directory" file), w)
  | _ => (inr file,
          {| fs := <[file := File (Text EmptyString)]> (fs w); stdout := stdout w |})
  end.

Definition ref_json_dump (doc : manifest) (file : string) (w : world)
    : (exn + unit) * world :=
  (inr tt, {| fs := <[file := File (JsonText doc)]> (fs w); stdout := stdout w |}).

Definition host : Host := {|
  World := world;
  TarFile := list TarInfo;
  TextFile := string;
  guess_type := mime;
  print := fun line w => {| fs := fs w; stdout := stdout w ++ [line] |};
  tarfile_open := ref_open;
  getmembers := fun tar w => (inr tar, w);
  extractall := ref_extractall;
  tarfile_exit := fun _ w => (inr tt, w);
  open_w := ref_open_w;
  json_dump := ref_json_dump;
  textfile_exit := fun _ w => (inr tt, w)
|}.

Definition disk (files : list (string * node)) : world :=
  {| fs := list_to_map files; stdout := [] |}.

(** A small archive: a directory, two regular files, a symbolic link. *)
Definition corpus : list TarInfo :=
  [ {| name := "wiki"; type := "5"%char; size := 0 |};
    {| name := "wiki/train.txt"; type := "0"%char; size := 1204 |};
    {| name := "wiki/test.txt"; type := "0"%char; size := 311 |};
    {| name := "wiki/latest"; type := "2"%char; size := 0 |} ].

(** The same name twice, as [tar -r] leaves it. *)
Definition appended : list TarInfo :=
  [ {| name := "a.txt"; type := "0"%char; size := 3 |};
    {| name := "a.txt"; type := "0"%char; size := 5 |} ].

(** Disks to run on: a good download, a download that is no archive,
    a good download next to an [out] that is a regular file, an archive
    with a repeated name, and an archive in the old V7 format, whose
    regular files have the type flag NUL. *)
Definition good : world :=
  disk [("dl/wiki.tar", File (TarBytes corpus))].

Definition corrupt : world :=
  disk [("dl/wiki.tar", File (Text "<html>404 Not Found</html>"))].

Definition blocked : world :=
  disk [("dl/wiki.tar", File (TarBytes corpus)); ("out", File (Text "x"))].

Definition mislabelled : world :=
  disk [("dl/wiki.zip", File (TarBytes corpus))].

Definition repeated : world :=
  disk [("dl/logs.tar", File (TarBytes appended))].

Definition v7 : list TarInfo :=
  [ {| name := "old.txt"; type := "000"%char; size := 3 |} ].

End RefHost.

(** ** Reading a run *)

Definition attempt_ok (a : attempt) : bool :=
  match outcome a with None => true | Some _ => false end.

Definition failed (a : attempt) : Prop := outcome a <> None.

Definition callees (log : list attempt) : list string := map callee log.

(** The documents [json.dump] wrote in full, with the file of each. *)
Definition dumped (e : effect) : option (string * manifest) :=
  match e with
  | JsonDump file doc None => Some (file, doc)
  | _ => None
  end.

Definition manifests_written (log : list attempt) : list (string * manifest) :=
  flat_map (fun a => omap dumped (io a)) log.

(** The member lists [getmembers] returned. *)
Definition enumerated (e : effect) : option (list TarInfo) :=
  match e with
  | GetMembers (inr ms) => Some ms
  | _ => None
  end.

Definition archives_read (log : list attempt) : list (list TarInfo) :=
  flat_map (fun a => omap enumerated (io a)) log.

(** What the manifest says of one member. *)
Definition is_digit (b : ascii) : bool :=
  let n := N_of_ascii b in (48 <=? n)%N && (n <=? 57)%N.

Definition manifest_entry (member : TarInfo) : string * pydict Z :=
  (name member,
   ("type", (Z.of_N (N_of_ascii (type member)) - 48)%Z)
     :: (if isreg member then [("size", size member)] else [])).

(** [needle in hay], for strings. *)
Fixpoint contains (needle hay : string) : bool :=
  String.prefix needle hay
  || match hay with
     | EmptyString => false
     | String _ hay' => contains needle hay'
     end.

Definition carries_path (e : exn) (path : string) : bool :=
  contains path (exn_str e).

Definition unsupported : exn := RuntimeError "Filetype not supported".

(** What [with_] leaves of the exception of its body. *)
Definition after_exit (exit body : option exn) : option exn :=
  match exit with Some e => Some e | None => body end.

(** The order of the library calls of one [tar_extractor] run and where
    it may stop: at [tarfile.open], at [getmembers], in the loop (at
    [int]), at [open], after [json.dump] and the closing of the file, or
    after [extractall]. The second index is the exception the run ends in. *)
Inductive tar_protocol (path data_dir file_list_file : string)
    : list effect -> option exn -> Prop :=
  | stop_at_open e :
      tar_protocol path data_dir file_list_file
        [Print "1: tar"; TarOpen path (Some e)]
        (Some (if is_ReadError e then ReadError (unarchive_message path e) else e))
  | stop_at_getmembers e x :
      tar_protocol path data_dir file_list_file
        [Print "1: tar"; TarOpen path None; GetMembers (inl e); TarExit x]
        (after_exit x (Some e))
  | stop_in_loop ms e x :
      for_members ms [] = inl e ->
      tar_protocol path data_dir file_list_file
        [Print "1: tar"; TarOpen path None; GetMembers (inr ms); TarExit x]
        (after_exit x (Some e))
  | stop_at_open_w ms doc e x :
      for_members ms [] = inr doc ->
      tar_protocol path data_dir file_list_file
        [Print "1: tar"; TarOpen path None; GetMembers (inr ms);
         OpenW file_list_file (Some e); TarExit x]
        (after_exit x (Some e))
  | stop_at_dump ms doc d c e x :
      for_members ms [] = inr doc ->
      after_exit c d = Some e ->
      tar_protocol path data_dir file_list_file
        [Print "1: tar"; TarOpen path None; GetMembers (inr ms);
         OpenW file_list_file None; JsonDump file_list_file doc d;
         FileExit file_list_file c; TarExit x]
        (after_exit x (Some e))
  | through_extractall ms doc e x :
      for_members ms [] = inr doc ->
      tar_protocol path data_dir file_list_file
        [Print "1: tar"; TarOpen path None; GetMembers (inr ms);
         OpenW file_list_file None; JsonDump file_list_file doc None;
         FileExit file_list_file None; ExtractAll data_dir e; TarExit x]
        (after_exit x e).

(** ** More ways to read a run *)

(** The library calls that create or change files. *)
Definition is_write (ev : effect) : bool :=
  match ev with
  | OpenW _ _ | JsonDump _ _ _ | ExtractAll _ _ => true
  | _ => false
  end.

Definition printed (ev : effect) : option string :=
  match ev with Print line => Some line | _ => None end.

(** Each library call is on the argument of [tar_extractor] that is
    meant for it. *)
Definition in_role (path data_dir file_list_file : string) (ev : effect)
    : Prop :=
  match ev with
  | TarOpen p _ => p = path
  | OpenW f _ | JsonDump f _ _ | FileExit f _ => f = file_list_file
  | ExtractAll d _ => d = data_dir
  | _ => True
  end.

(** [RefHost] with an archive cut short after its first header:
    [tarfile.open] reads that header, [getmembers] runs into the end. *)
Definition truncated_host : Host := {|
  World := RefHost.world;
  TarFile := list TarInfo;
  TextFile := string;
  guess_type := RefHost.mime;
  print := print RefHost.host;
  tarfile_open := RefHost.ref_open;
  getmembers := fun _ w => (inl (ReadError "unexpected end of data"), w);
  extractall := RefHost.ref_extractall;
  tarfile_exit := fun _ w => (inr tt, w);
  open_w := RefHost.ref_open_w;
  json_dump := RefHost.ref_json_dump;
  textfile_exit := fun _ w => (inr tt, w)
|}.

(** * Properties *)

(** ** Dicts *)

Lemma dict_get_set_same {V} (k : string) (v : V) (d : pydict V) :
  dict_get k (dict_set k v d) = Some v.
Proof.
  induction d as [|[k' v'] d IH]; simpl.
  - now rewrite String.eqb_refl.
  - destruct (String.eqb k k') eqn:E; simpl; rewrite ?String.eqb_refl, ?E; auto.
Qed.

Lemma dict_set_twice {V} (k : string) (v1 v2 : V) (d : pydict V) :
  dict_set k v2 (dict_set k v1 d) = dict_set k v2 d.
Proof.
  induction d as [|[k' v'] d IH]; simpl.
  - now rewrite String.eqb_refl.
  - destruct (String.eqb k k') eqn:E; simpl; rewrite ?String.eqb_refl, ?E; auto.
    now rewrite IH.
Qed.

Lemma dict_set_fresh {V} (k : string) (v : V) (d : pydict V) :
  k ∉ dict_keys d -> dict_set k v d = d ++ [(k, v)].
Proof.
  induction d as [|[k' v'] d IH]; simpl; intros Hk; [reflexivity|].
  apply not_elem_of_cons in Hk as [Hne Hk].
  destruct (String.eqb_spec k k') as [->|_]; [congruence|].
  now rewrite IH.
Qed.

Lemma dict_keys_set {V} (k : string) (v : V) (d : pydict V) :
  dict_keys (dict_set k v d)
  = if bool_decide (k ∈ dict_keys d) then dict_keys d else dict_keys d ++ [k].
Proof.
  induction d as [|[k' v'] d IH]; simpl.
  - reflexivity.
  - destruct (String.eqb_spec k k') as [->|Hne]; simpl.
    + rewrite bool_decide_eq_true_2; [reflexivity|]. apply elem_of_cons. now left.
    + rewrite IH. destruct (bool_decide (k ∈ dict_keys d)) eqn:E.
      * apply bool_decide_eq_true_1 in E.
        rewrite bool_decide_eq_true_2; [reflexivity|]. apply elem_of_cons. now right.
      * apply bool_decide_eq_false_1 in E.
        rewrite bool_decide_eq_false_2; [reflexivity|].
        apply not_elem_of_cons. split; assumption.
Qed.

(** ** The manifest, as a function of the member list *)

Lemma py_int_digit (b : ascii) :
  is_digit b = true -> py_int b = inr (Z.of_N (N_of_ascii b) - 48)%Z.
Proof. unfold is_digit, py_int. now intros ->. Qed.

Lemma py_int_other (b : ascii) :
  is_digit b = false -> exists msg, py_int b = inl (ValueError msg).
Proof. unfold is_digit, py_int. intros ->. eauto. Qed.

Lemma record_member_digit (member : TarInfo) (members : manifest) :
  is_digit (type member) = true ->
  record_member member members
  = inr (dict_set (name member) (snd (manifest_entry member)) members).
Proof.
  intros Hd. unfold record_member, manifest_entry.
  rewrite (py_int_digit _ Hd), dict_get_set_same. simpl.
  destruct (isreg member); [|reflexivity].
  rewrite dict_set_twice. simpl. reflexivity.
Qed.

Lemma for_members_distinct (ms : list TarInfo) : forall members : manifest,
  NoDup (map name ms) ->
  Forall (fun member => is_digit (type member) = true) ms ->
  (forall member, member ∈ ms -> name member ∉ dict_keys members) ->
  for_members ms members = inr (members ++ map manifest_entry ms).
Proof.
  induction ms as [|member rest IH]; intros members Hnd Hdig Hfresh; simpl.
  - now rewrite app_nil_r.
  - apply NoDup_cons in Hnd as [Hnotin Hnd'].
    apply Forall_cons in Hdig as [Hd Hdig'].
    rewrite (record_member_digit _ _ Hd).
    rewrite dict_set_fresh by (apply Hfresh, elem_of_cons; now left).
    rewrite IH; auto.
    + now rewrite <- app_assoc.
    + intros m Hm. unfold dict_keys. rewrite map_app. simpl.
      apply not_elem_of_app. split.
      * apply Hfresh, elem_of_cons. now right.
      * apply not_elem_of_cons. split; [|apply not_elem_of_nil].
        intros Heq. apply Hnotin. rewrite <- Heq.
        now apply list_elem_of_fmap_2.
Qed.

(** With a name that comes back, the dict keeps one entry per name. *)
Lemma for_members_keys (ms : list TarInfo) : forall (members doc : manifest),
  for_members ms members = inr doc ->
  NoDup (dict_keys members) ->
  NoDup (dict_keys doc)
  /\ (forall k, k ∈ dict_keys doc <-> k ∈ dict_keys members \/ k ∈ map name ms).
Proof.
  induction ms as [|member rest IH]; simpl; intros members doc Hrun Hnd.
  - injection Hrun as <-. split; [exact Hnd|]. intros k. set_solver.
  - destruct (record_member member members) as [e|members'] eqn:Hrec; [discriminate|].
    assert (Hkeys : dict_keys members'
                    = if bool_decide (name member ∈ dict_keys members)
                      then dict_keys members else dict_keys members ++ [name member]).
    { unfold record_member in Hrec.
      destruct (py_int (type member)) as [e|t]; [discriminate|].
      rewrite dict_get_set_same in Hrec.
      destruct (isreg member); injection Hrec as <-;
        rewrite ?dict_set_twice; apply dict_keys_set. }
    destruct (IH members' doc Hrun) as [Hnd' Hin'].
    + rewrite Hkeys. case_bool_decide as Hc; [exact Hnd|].
      apply NoDup_app. repeat split; auto.
      * intros x Hx Hx'. apply list_elem_of_singleton in Hx'. now subst.
      * apply NoDup_singleton.
    + split; [exact Hnd'|]. intros k. rewrite Hin', Hkeys.
      case_bool_decide as Hc; set_solver.
Qed.

(** ** One run of [tar_extractor] *)

Section Tar_extractor_facts.

Context (H : Host).

Lemma tar_extractor_follows_protocol (path data_dir file_list_file : string)
    (w : World H) :
  let r := tar_extractor_body H path data_dir file_list_file w in
  tar_protocol path data_dir file_list_file (trace r) (error_of (val r)).
Proof.
  unfold tar_extractor_body, bind, try_except, with_, host_call, do_print,
    lift, raise, ret; simpl.
  destruct (tarfile_open H path (print H "1: tar" w)) as [[e|tar] w1]; simpl.
  { generalize (stop_at_open path data_dir file_list_file e).
    destruct (is_ReadError e); simpl; auto. }
  destruct (getmembers H tar w1) as [[e|ms] w2]; simpl.
  { destruct (tarfile_exit H tar w2) as [[x|[]] w3]; simpl;
      [apply (stop_at_getmembers _ _ _ e (Some x))
      |apply (stop_at_getmembers _ _ _ e None)]. }
  destruct (for_members ms []) as [e|doc] eqn:Hloop; simpl.
  { destruct (tarfile_exit H tar w2) as [[x|[]] w3]; simpl;
      [apply (stop_in_loop _ _ _ ms e (Some x) Hloop)
      |apply (stop_in_loop _ _ _ ms e None Hloop)]. }
  destruct (open_w H file_list_file w2) as [[e|f] w3]; simpl.
  { destruct (tarfile_exit H tar w3) as [[x|[]] w4]; simpl;
      [apply (stop_at_open_w _ _ _ ms doc e (Some x) Hloop)
      |apply (stop_at_open_w _ _ _ ms doc e None Hloop)]. }
  destruct (json_dump H doc f w3) as [[d|[]] w4]; simpl;
    destruct (textfile_exit H f w4) as [[c|[]] w5]; simpl.
  1-3: destruct (tarfile_exit H tar w5) as [[x|[]] w6]; simpl.
  1: apply (stop_at_dump _ _ _ ms doc (Some d) (Some c) c (Some x) Hloop eq_refl).
  1: apply (stop_at_dump _ _ _ ms doc (Some d) (Some c) c None Hloop eq_refl).
  1: apply (stop_at_dump _ _ _ ms doc (Some d) None d (Some x) Hloop eq_refl).
  1: apply (stop_at_dump _ _ _ ms doc (Some d) None d None Hloop eq_refl).
  1: apply (stop_at_dump _ _ _ ms doc None (Some c) c (Some x) Hloop eq_refl).
  1: apply (stop_at_dump _ _ _ ms doc None (Some c) c None Hloop eq_refl).
  destruct (extractall H tar data_dir w5) as [[e|[]] w6]; simpl;
    destruct (tarfile_exit H tar w6) as [[x|[]] w7]; simpl.
  - apply (through_extractall _ _ _ ms doc (Some e) (Some x) Hloop).
  - apply (through_extractall _ _ _ ms doc (Some e) None Hloop).
  - apply (through_extractall _ _ _ ms doc None (Some x) Hloop).
  - apply (through_extractall _ _ _ ms doc None None Hloop).
Qed.

End Tar_extractor_facts.

(** ** The dispatcher *)

Section Dispatcher_facts.

Context (H : Host).

#[local] Abbreviation W := (World H).

Lemma dict_get_values {V} (k : string) (d : pydict V) (v : V) :
  dict_get k d = Some v -> v ∈ dict_values d.
Proof.
  induction d as [|[k' v'] d IH]; simpl; [discriminate|].
  destruct (String.eqb k k'); intros Hg; apply elem_of_cons.
  - left. congruence.
  - right. auto.
Qed.

Lemma key_in_get {V} (key : option string) (d : pydict V) (default : option V) :
  key_in key d = true ->
  exists v, dict_get_or key d default = Some v /\ v ∈ dict_values d.
Proof.
  destruct key as [k|]; simpl; [|discriminate].
  intros Hk. apply bool_decide_eq_true_1 in Hk as [v Hv].
  exists v. rewrite Hv. eauto using dict_get_values.
Qed.

Lemma key_out_get {V} (key : option string) (d : pydict V) (default : option V) :
  key_in key d = false -> dict_get_or key d default = default.
Proof.
  destruct key as [k|]; simpl; [|reflexivity].
  intros Hk. apply bool_decide_eq_false_1 in Hk.
  destruct (dict_get k d) as [v|]; [|reflexivity].
  exfalso. apply Hk. eauto.
Qed.

(** The merged registry lists the archive extractors, then the
    compression extractors, each family in the order of its dict. *)
Lemma registry_order :
  dict_values (extractor_map H)
  = dict_values (archives H) ++ dict_values (compressions H).
Proof. reflexivity. Qed.

Lemma registry_values :
  dict_values (extractor_map H) = tar_extractor H :: stubs H.
Proof. reflexivity. Qed.

Lemma registry_names :
  map fn_name (dict_values (extractor_map H))
  = ["tar_extractor"; "zip_extractor"; "gzip_extractor"; "bzip2_extractor";
     "lzma_extractor"].
Proof. reflexivity. Qed.

Lemma hinted_cases (path : string) :
  hinted H path = None
  \/ exists extractor,
       hinted H path = Some (Some extractor)
       /\ extractor ∈ dict_values (extractor_map H).
Proof.
  unfold hinted. destruct (guess_type H path) as [ftype fencoding].
  cbn [existsb]. rewrite orb_false_r.
  destruct (key_in ftype (extractor_map H)) eqn:Ht; cbn [orb].
  - right. destruct (key_in_get ftype _
      (dict_get_or fencoding (extractor_map H) None) Ht) as (v & -> & Hv). eauto.
  - destruct (key_in fencoding (extractor_map H)) eqn:He; [|now left].
    right. rewrite (key_out_get _ _ _ Ht).
    destruct (key_in_get fencoding _ None He) as (v & -> & Hv). eauto.
Qed.

(** A call with three arguments of an extractor that takes one. *)
Lemma call_stub (extractor : pyfun H) (a b c : string) (w : W) :
  extractor ∈ stubs H ->
  call H extractor [a; b; c] w
  = Run (inl (TypeError (fn_name extractor
            ++ "() takes 1 positional argument but 3 were given"))) w [].
Proof.
  unfold stubs. rewrite !elem_of_cons, elem_of_nil.
  intros [->|[->|[->|[->|[]]]]]; reflexivity.
Qed.

Lemma call_tar (path data_dir file_list_file : string) (w : W) :
  call H (tar_extractor H) [path; data_dir; file_list_file] w
  = tar_extractor_body H path data_dir file_list_file w.
Proof. reflexivity. Qed.

(** The [for] loop, by induction on the extractors left: the names tried
    are a prefix of the list, every attempt but a last successful one
    failed, and the loop says whether it returned. *)
Lemma sweep_spec (args : list string) (extractors : list (pyfun H)) : forall w : W,
  let r := sweep H extractors args w in
  exists tried rest,
    extractors = tried ++ rest
    /\ callees (trace r) = map fn_name tried
    /\ Forall (made_by H extractors args) (trace r)
    /\ ((val r = inr true
         /\ exists before a, trace r = before ++ [a]
              /\ Forall failed before /\ outcome a = None)
        \/ (val r = inr false /\ rest = [] /\ Forall failed (trace r))).
Proof.
  induction extractors as [|f fs IH]; intros w; cbn [sweep].
  - exists [], []. cbn. split; [reflexivity|]. split; [reflexivity|].
    split; [constructor|]. right. repeat split; constructor.
  - unfold bind, try_extractor.
    set (c := call H f args w).
    assert (Hmade : made_by H (f :: fs) args (record_of H f c)).
    { exists f, w. split; [apply elem_of_cons; now left|reflexivity]. }
    destruct (val c) as [e|[]] eqn:Hc; cbn [succeeded]; cbv beta iota.
    + specialize (IH (world c)). cbn zeta in IH.
      destruct (sweep H fs args (world c)) as [v w2 t'].
      cbn [val world trace] in *.
      destruct IH as (tried & rest & -> & Hnames & Hmades & Hend).
      exists (f :: tried), rest. cbn [app map callees].
      repeat split.
      * unfold callees in Hnames. now rewrite Hnames.
      * constructor; [exact Hmade|].
        eapply Forall_impl; [exact Hmades|].
        intros a (g & w' & Hg & ->). exists g, w'. split; [|reflexivity].
        apply elem_of_cons. now right.
      * assert (Hfail : failed (record_of H f c)).
        { unfold failed, record_of. cbn. rewrite Hc. discriminate. }
        destruct Hend as [(Hv & before & a & Ht & Hb & Ha)|(Hv & -> & Hall)].
        -- left. split; [exact Hv|].
           exists (record_of H f c :: before), a. rewrite Ht.
           repeat split; auto.
        -- right. repeat split; auto.
    + unfold ret. exists [f], fs. cbn [val world trace app map callees].
      repeat split; auto. left. split; [reflexivity|].
      exists [], (record_of H f c). repeat split; auto.
      unfold record_of. cbn. now rewrite Hc.
Qed.

Lemma sweep_returns (args : list string) (extractors : list (pyfun H)) (w : W) :
  exists b, val (sweep H extractors args w) = inr b.
Proof.
  destruct (sweep_spec args extractors w) as (_ & _ & _ & _ & _ & [[-> _]|[-> _]]);
    eauto.
Qed.

(** Step 1 makes no attempt, or one, on the world it starts in. *)
Lemma hinted_attempt_spec (path : string) (args : list string) (w : W) :
  (hinted H path = None /\ hinted_attempt H path args w = Run (inr false) w [])
  \/ exists extractor,
       hinted H path = Some (Some extractor)
       /\ extractor ∈ dict_values (extractor_map H)
       /\ let c := call H extractor args w in
          hinted_attempt H path args w
          = Run (inr (succeeded (val c))) (world c) [record_of H extractor c].
Proof.
  unfold hinted_attempt.
  destruct (hinted_cases path) as [->|(f & -> & Hf)]; [now left|].
  right. exists f. repeat split; auto.
Qed.

Lemma extract_hit (path data_dir file_list_file : string) (w : W) :
  let r1 := hinted_attempt H path [path; data_dir; file_list_file] w in
  val r1 = inr true ->
  extract_data_files H path data_dir file_list_file w
  = Run (inr tt) (world r1) (trace r1).
Proof.
  cbn zeta. unfold extract_data_files, bind.
  destruct (hinted_attempt H path [path; data_dir; file_list_file] w)
    as [v w1 t].
  cbn [val world trace]. intros ->. cbn. now rewrite app_nil_r.
Qed.

Lemma extract_miss (path data_dir file_list_file : string) (w : W) :
  let args := [path; data_dir; file_list_file] in
  let r1 := hinted_attempt H path args w in
  let r2 := sweep H (dict_values (extractor_map H)) args (world r1) in
  val r1 = inr false ->
  extract_data_files H path data_dir file_list_file w
  = Run (match val r2 with inr true => inr tt | _ => inl unsupported end)
        (world r2) (trace r1 ++ trace r2).
Proof.
  cbn zeta. unfold extract_data_files, bind.
  destruct (hinted_attempt H path [path; data_dir; file_list_file] w)
    as [v w1 t].
  cbn [val world trace]. intros ->.
  destruct (sweep_returns [path; data_dir; file_list_file]
              (dict_values (extractor_map H)) w1) as [b Hb].
  destruct (sweep H (dict_values (extractor_map H))
              [path; data_dir; file_list_file] w1) as [v2 w2 t2].
  cbn [val world trace] in *. subst v2.
  destruct b; cbn; now rewrite ?app_nil_r.
Qed.

(** The whole run: the attempt of step 1, if any, then the sweep. *)
Lemma extract_log (path data_dir file_list_file : string) (w : W) :
  let args := [path; data_dir; file_list_file] in
  let r := extract_data_files H path data_dir file_list_file w in
  exists head tail tried rest,
    trace r = head ++ tail
    /\ ((hinted H path = None /\ head = [])
        \/ exists extractor,
             hinted H path = Some (Some extractor)
             /\ head = [record_of H extractor (call H extractor args w)])
    /\ (Exists (fun a => outcome a = None) head -> tail = [])
    /\ dict_values (extractor_map H) = tried ++ rest
    /\ callees tail = map fn_name tried
    /\ Forall (made_by H (dict_values (extractor_map H)) args) (trace r)
    /\ ((val r = inr tt
         /\ exists before a, trace r = before ++ [a]
              /\ Forall failed before /\ outcome a = None)
        \/ (val r = inl unsupported /\ rest = [] /\ Forall failed (trace r))).
Proof.
  cbn zeta. set (args := [path; data_dir; file_list_file]).
  destruct (hinted_attempt_spec path args w) as [[Hh Hr1]|(f & Hh & Hf & Hr1)].
  - (* no hint: the sweep starts at once *)
    rewrite (extract_miss path data_dir file_list_file w) by (fold args; now rewrite Hr1).
    fold args. rewrite Hr1. cbn [val world trace app].
    destruct (sweep_spec args (dict_values (extractor_map H)) w)
      as (tried & rest & Hsplit & Hnames & Hmade & Hend).
    cbn zeta in *. set (r2 := sweep H _ args w) in *.
    exists [], (trace r2), tried, rest. cbn [app].
    repeat split; auto.
    + intros Hex. inversion Hex.
    + destruct Hend as [(-> & Hlast)|(-> & -> & Hall)]; [left|right]; auto.
  - cbn zeta in Hr1. set (c := call H f args w) in *.
    assert (Hmade1 : made_by H (dict_values (extractor_map H)) args (record_of H f c)).
    { exists f, w. split; [exact Hf|reflexivity]. }
    destruct (val c) as [e|[]] eqn:Hc; cbn [succeeded] in Hr1.
    + (* the hinted attempt failed *)
      rewrite (extract_miss path data_dir file_list_file w) by (fold args; now rewrite Hr1).
      fold args. rewrite Hr1. cbn [val world trace app].
      destruct (sweep_spec args (dict_values (extractor_map H)) (world c))
        as (tried & rest & Hsplit & Hnames & Hmade & Hend).
      cbn zeta in *. set (r2 := sweep H _ args (world c)) in *.
      assert (Hfail : failed (record_of H f c)).
      { unfold failed, record_of. cbn. rewrite Hc. discriminate. }
      exists [record_of H f c], (trace r2), tried, rest. cbn [app].
      repeat split; eauto.
      * intros Hex. apply Exists_cons in Hex as [Hex|Hex]; [|inversion Hex].
        exfalso. now apply Hfail.
      * destruct Hend as [(-> & before & a & Ht & Hb & Ha)|(-> & -> & Hall)];
          [left|right]; repeat split; auto.
        exists (record_of H f c :: before), a. rewrite Ht. repeat split; auto.
    + (* the hinted attempt returned *)
      rewrite (extract_hit path data_dir file_list_file w) by (fold args; now rewrite Hr1).
      fold args. rewrite Hr1. cbn [val world trace].
      exists [record_of H f c], [], [], (dict_values (extractor_map H)).
      repeat split; eauto.
      left. split; [reflexivity|]. exists [], (record_of H f c).
      repeat split; auto. unfold record_of. cbn. now rewrite Hc.
Qed.

(** What an attempt of a registered extractor looks like. *)
Lemma made_by_kinds (path data_dir file_list_file : string) (a : attempt) :
  made_by H (dict_values (extractor_map H)) [path; data_dir; file_list_file] a ->
  (callee a = "tar_extractor"
   /\ tar_protocol path data_dir file_list_file (io a) (outcome a))
  \/ (callee a ∈ map fn_name (stubs H)
      /\ io a = []
      /\ outcome a = Some (TypeError (callee a
            ++ "() takes 1 positional argument but 3 were given"))).
Proof.
  intros (f & w & Hf & ->). rewrite registry_values in Hf.
  apply elem_of_cons in Hf as [->|Hf].
  - left. rewrite call_tar. split; [reflexivity|].
    apply tar_extractor_follows_protocol.
  - right. rewrite (call_stub _ _ _ _ _ Hf). unfold record_of.
    cbn [callee io outcome val trace error_of].
    split; [now apply list_elem_of_fmap_2|]. split; reflexivity.
Qed.

End Dispatcher_facts.

(** * The claims *)

(** ** Step 1: the hinted extractor *)

Lemma hinted_selects (H : Host) (path : string) (ftype fencoding : option string) :
  guess_type H path = (ftype, fencoding) ->
  key_in ftype (extractor_map H) || key_in fencoding (extractor_map H) = true ->
  exists extractor,
    (if key_in ftype (extractor_map H)
     then dict_get_or ftype (extractor_map H) None
     else dict_get_or fencoding (extractor_map H) None) = Some extractor
    /\ hinted H path = Some (Some extractor).
Proof.
  intros Hg Hk. unfold hinted. rewrite Hg. cbn [existsb].
  rewrite orb_false_r, Hk.
  destruct (key_in ftype (extractor_map H)) eqn:Ht; cbn [orb] in Hk.
  - destruct (key_in_get ftype _ None Ht) as (v & Hv & _).
    destruct (key_in_get ftype _
      (dict_get_or fencoding (extractor_map H) None) Ht) as (v' & Hv' & _).
    exists v. split; [exact Hv|].
    destruct ftype as [k|]; [|discriminate]. unfold dict_get_or in Hv |- *.
    destruct (dict_get k (extractor_map H)); congruence.
  - rewrite (key_out_get _ _ _ Ht).
    destruct (key_in_get fencoding _ None Hk) as (v & Hv & _).
    exists v. now rewrite Hv.
Qed.

(** C1. When the guessed type or the guessed encoding is a key of the
    merged registry, the first attempt of [extract_data_files] is the
    extractor of the type if the type is a key, of the encoding
    otherwise; and if that call raises nothing, the run is that one
    attempt and returns. *)
Theorem hinted_extractor_alone_on_success (H : Host)
    (path data_dir file_list_file : string) (w : World H)
    (ftype fencoding : option string) :
  guess_type H path = (ftype, fencoding) ->
  key_in ftype (extractor_map H) || key_in fencoding (extractor_map H) = true ->
  exists extractor,
    (if key_in ftype (extractor_map H)
     then dict_get_or ftype (extractor_map H) None
     else dict_get_or fencoding (extractor_map H) None) = Some extractor
    /\ let r := extract_data_files H path data_dir file_list_file w in
       let c := call H extractor [path; data_dir; file_list_file] w in
       (exists later, trace r = record_of H extractor c :: later)
       /\ (val c = inr tt ->
           r = Run (inr tt) (world c) [record_of H extractor c]).
Proof.
  intros Hg Hk.
  destruct (hinted_selects H path ftype fencoding Hg Hk) as (f & Hsel & Hh).
  exists f. split; [exact Hsel|]. cbn zeta.
  set (args := [path; data_dir; file_list_file]).
  assert (Hr1 : hinted_attempt H path args w
                = Run (inr (succeeded (val (call H f args w))))
                      (world (call H f args w))
                      [record_of H f (call H f args w)]).
  { unfold hinted_attempt. now rewrite Hh. }
  split.
  - destruct (val (call H f args w)) as [e|[]] eqn:Hc; cbn [succeeded] in Hr1.
    + rewrite (extract_miss H path data_dir file_list_file w)
        by (fold args; now rewrite Hr1).
      fold args. rewrite Hr1. cbn [trace app]. eauto.
    + rewrite (extract_hit H path data_dir file_list_file w)
        by (fold args; now rewrite Hr1).
      fold args. rewrite Hr1. cbn [trace]. eauto.
  - intros Hc. rewrite Hc in Hr1. cbn [succeeded] in Hr1.
    rewrite (extract_hit H path data_dir file_list_file w)
      by (fold args; now rewrite Hr1).
    fold args. now rewrite Hr1.
Qed.

Lemma hinted_extractor_alone_on_success_witness :
  guess_type RefHost.host "dl/wiki.tar" = (Some "application/x-tar", None)
  /\ key_in (Some "application/x-tar") (extractor_map RefHost.host)
     || key_in None (extractor_map RefHost.host) = true
  /\ exists extractor,
       (if key_in (Some "application/x-tar") (extractor_map RefHost.host)
        then dict_get_or (Some "application/x-tar") (extractor_map RefHost.host) None
        else dict_get_or None (extractor_map RefHost.host) None) = Some extractor
       /\ let r := extract_data_files RefHost.host "dl/wiki.tar" "out" "files.json"
                     RefHost.good in
          let c := call RefHost.host extractor ["dl/wiki.tar"; "out"; "files.json"]
                     RefHost.good in
          (exists later, trace r = record_of RefHost.host extractor c :: later)
          /\ (val c = inr tt ->
              r = Run (inr tt) (world c) [record_of RefHost.host extractor c]).
Proof.
  split; [reflexivity|]. split; [reflexivity|].
  apply (hinted_extractor_alone_on_success RefHost.host "dl/wiki.tar" "out"
           "files.json" RefHost.good (Some "application/x-tar") None);
    reflexivity.
Defined.

(** ** Step 2: the sweep *)

Lemma hinted_none (H : Host) (path : string) (ftype fencoding : option string) :
  guess_type H path = (ftype, fencoding) ->
  key_in ftype (extractor_map H) || key_in fencoding (extractor_map H) = false ->
  hinted H path = None.
Proof.
  intros Hg Hk. unfold hinted. rewrite Hg. cbn [existsb].
  now rewrite orb_false_r, Hk.
Qed.

(** C2. When neither the guessed type nor the guessed encoding is
    registered, or the hinted attempt raised, the attempts that follow are
    calls of the registered extractors in registry order (the archive
    extractors, then the compression extractors), up to and including the
    first call that raises nothing, where the run returns; if every call
    raises, all of them were tried. *)
Theorem sweep_in_registry_order (H : Host)
    (path data_dir file_list_file : string) (w : World H)
    (ftype fencoding : option string) :
  let args := [path; data_dir; file_list_file] in
  let r := extract_data_files H path data_dir file_list_file w in
  guess_type H path = (ftype, fencoding) ->
  (key_in ftype (extractor_map H) || key_in fencoding (extractor_map H) = false
   \/ exists extractor e,
        hinted H path = Some (Some extractor)
        /\ val (call H extractor args w) = inl e) ->
  exists tail tried rest,
    trace r = trace (hinted_attempt H path args w) ++ tail
    /\ dict_values (archives H) ++ dict_values (compressions H) = tried ++ rest
    /\ callees tail = map fn_name tried
    /\ Forall (made_by H (dict_values (extractor_map H)) args) tail
    /\ ((val r = inr tt
         /\ exists before a, tail = before ++ [a]
              /\ Forall failed before /\ outcome a = None)
        \/ (val r = inl unsupported /\ rest = [] /\ Forall failed tail)).
Proof.
  cbn zeta. set (args := [path; data_dir; file_list_file]). intros Hg Hcase.
  assert (Hr1 : val (hinted_attempt H path args w) = inr false).
  { destruct Hcase as [Hk|(f & e & Hh & Hc)].
    - unfold hinted_attempt. now rewrite (hinted_none H path _ _ Hg Hk).
    - unfold hinted_attempt. rewrite Hh. cbn. now rewrite Hc. }
  rewrite (extract_miss H path data_dir file_list_file w) by exact Hr1.
  fold args. cbn [val trace].
  destruct (sweep_spec H args (dict_values (extractor_map H))
              (world (hinted_attempt H path args w)))
    as (tried & rest & Hsplit & Hnames & Hmade & Hend).
  cbn zeta in *.
  set (r2 := sweep H (dict_values (extractor_map H)) args _) in *.
  exists (trace r2), tried, rest. rewrite <- registry_order.
  repeat split; auto.
  destruct Hend as [(-> & Hlast)|(-> & -> & Hall)]; [left|right]; auto.
Qed.

Lemma sweep_in_registry_order_witness :
  guess_type RefHost.host "dl/wiki.tar" = (Some "application/x-tar", None)
  /\ (key_in (Some "application/x-tar") (extractor_map RefHost.host)
      || key_in None (extractor_map RefHost.host) = false
      \/ exists extractor e,
           hinted RefHost.host "dl/wiki.tar" = Some (Some extractor)
           /\ val (call RefHost.host extractor ["dl/wiki.tar"; "out"; "files.json"]
                     RefHost.corrupt) = inl e)
  /\ exists tail tried rest,
       trace (extract_data_files RefHost.host "dl/wiki.tar" "out" "files.json"
                RefHost.corrupt)
       = trace (hinted_attempt RefHost.host "dl/wiki.tar"
                  ["dl/wiki.tar"; "out"; "files.json"] RefHost.corrupt) ++ tail
       /\ dict_values (archives RefHost.host) ++ dict_values (compressions RefHost.host)
          = tried ++ rest
       /\ callees tail = map fn_name tried
       /\ Forall (made_by RefHost.host (dict_values (extractor_map RefHost.host))
                    ["dl/wiki.tar"; "out"; "files.json"]) tail
       /\ ((val (extract_data_files RefHost.host "dl/wiki.tar" "out" "files.json"
                   RefHost.corrupt) = inr tt
            /\ exists before a, tail = before ++ [a]
                 /\ Forall failed before /\ outcome a = None)
           \/ (val (extract_data_files RefHost.host "dl/wiki.tar" "out" "files.json"
                      RefHost.corrupt) = inl unsupported
               /\ rest = [] /\ Forall failed tail)).
Proof.
  assert (Hcase :
    key_in (Some "application/x-tar") (extractor_map RefHost.host)
    || key_in None (extractor_map RefHost.host) = false
    \/ exists extractor e,
         hinted RefHost.host "dl/wiki.tar" = Some (Some extractor)
         /\ val (call RefHost.host extractor ["dl/wiki.tar"; "out"; "files.json"]
                   RefHost.corrupt) = inl e).
  { right. exists (tar_extractor RefHost.host). eexists.
    split; [reflexivity|]. vm_compute. reflexivity. }
  split; [reflexivity|]. split; [exact Hcase|].
  exact (sweep_in_registry_order RefHost.host "dl/wiki.tar" "out" "files.json"
           RefHost.corrupt (Some "application/x-tar") None eq_refl Hcase).
Defined.

(** ** Step 3: the error of the dispatcher *)

(** The claim as the specification words it asks the error to carry the
    path of the source file. On a download that is no archive every
    attempt raises and the error that comes out has the fixed message. *)
Lemma unsupported_error_omits_path :
  let r := extract_data_files RefHost.host "dl/wiki.tar" "out" "files.json"
             RefHost.corrupt in
  Forall failed (trace r)
  /\ exists e, val r = inl e /\ carries_path e "dl/wiki.tar" = false.
Proof.
  cbn zeta. split.
  - vm_compute. repeat constructor; discriminate.
  - eexists. split; vm_compute; reflexivity.
Qed.

(** C3, amended. When every attempt raises, [extract_data_files] raises
    [RuntimeError('Filetype not supported')]: one error, with a message
    that is the same for every path; and no other exception ever comes out
    of [extract_data_files]. *)
Theorem only_error_is_unsupported (H : Host)
    (path data_dir file_list_file : string) (w : World H) :
  let r := extract_data_files H path data_dir file_list_file w in
  (Forall failed (trace r) -> val r = inl (RuntimeError "Filetype not supported"))
  /\ (forall e, val r = inl e ->
        e = RuntimeError "Filetype not supported" /\ Forall failed (trace r)).
Proof.
  cbn zeta.
  destruct (extract_log H path data_dir file_list_file w)
    as (head & tail & tried & rest & _ & _ & _ & _ & _ & _ & Hend).
  cbn zeta in Hend. split.
  - intros Hall.
    destruct Hend as [(_ & before & a & Ht & _ & Ha)|(Hv & _)]; [|exact Hv].
    exfalso. rewrite Ht in Hall. apply Forall_app in Hall as [_ Hall].
    apply Forall_cons in Hall as [Hfa _]. now apply Hfa.
  - intros e He.
    destruct Hend as [(Hv & _)|(Hv & _ & Hall)]; [congruence|].
    rewrite Hv in He. injection He as <-. split; [reflexivity|exact Hall].
Qed.

(** C5. An exception raised by an attempt, in step 1 or in the sweep, stops
    at the dispatcher: the attempt that raised is followed by another
    attempt, or by the dispatcher's own final error; what comes out of
    [extract_data_files] is a return or that one error, whatever the
    attempts raised. *)
Theorem attempt_errors_are_swallowed (H : Host)
    (path data_dir file_list_file : string) (w : World H) :
  let r := extract_data_files H path data_dir file_list_file w in
  (val r = inr tt \/ val r = inl unsupported)
  /\ (forall before a after e,
        trace r = before ++ a :: after ->
        outcome a = Some e ->
        after <> [] \/ val r = inl unsupported).
Proof.
  cbn zeta.
  destruct (extract_log H path data_dir file_list_file w)
    as (head & tail & tried & rest & _ & _ & _ & _ & _ & _ & Hend).
  cbn zeta in Hend.
  destruct Hend as [(Hv & front & z & Ht & _ & Hz)|(Hv & _)].
  - split; [now left|]. intros before a after e Hsplit Ha.
    left. intros ->. rewrite Ht in Hsplit.
    apply app_inj_tail in Hsplit as [_ ->]. congruence.
  - split; [now right|]. intros. now right.
Qed.

(** ** Retries *)

Lemma registry_names_distinct (H : Host) :
  NoDup (map fn_name (dict_values (extractor_map H))).
Proof.
  rewrite registry_names.
  repeat (apply NoDup_cons_2;
          [rewrite ?elem_of_cons, elem_of_nil; intuition discriminate|]).
  apply NoDup_nil_2.
Qed.

(** The claim as the specification words it: no extractor twice. A
    download with the name of a tar archive and other bytes in it has
    [tar_extractor] called in step 1 and again at the head of the sweep. *)
Lemma hinted_extractor_is_called_again :
  let r := extract_data_files RefHost.host "dl/wiki.tar" "out" "files.json"
             RefHost.corrupt in
  callees (trace r)
  = ["tar_extractor"; "tar_extractor"; "zip_extractor"; "gzip_extractor";
     "bzip2_extractor"; "lzma_extractor"]
  /\ ~ NoDup (callees (trace r)).
Proof.
  cbn zeta.
  assert (Hc : callees (trace (extract_data_files RefHost.host "dl/wiki.tar"
                                 "out" "files.json" RefHost.corrupt))
               = ["tar_extractor"; "tar_extractor"; "zip_extractor";
                  "gzip_extractor"; "bzip2_extractor"; "lzma_extractor"]).
  { vm_compute. reflexivity. }
  split; [exact Hc|]. rewrite Hc. intros Hnd.
  apply NoDup_cons in Hnd as [Hnotin _]. apply Hnotin, elem_of_cons. now left.
Qed.

(** C9, amended. The names called are the hinted one, if any, followed by
    a duplicate-free prefix of the registry: no extractor is called twice
    within the sweep, none more than twice in the run. The sweep does not
    leave the hinted extractor out: when it raised in step 1 and the run
    ends in the error, the sweep went through the whole registry and
    called it a second time. *)
Theorem sweep_repeats_only_the_hinted (H : Host)
    (path data_dir file_list_file : string) (w : World H) :
  let args := [path; data_dir; file_list_file] in
  let r := extract_data_files H path data_dir file_list_file w in
  exists head tail rest,
    callees (trace r) = head ++ tail
    /\ length head <= 1
    /\ NoDup tail
    /\ map fn_name (dict_values (extractor_map H)) = tail ++ rest
    /\ (val r = inl unsupported -> rest = [])
    /\ (forall extractor e,
          hinted H path = Some (Some extractor) ->
          val (call H extractor args w) = inl e ->
          head = [fn_name extractor]
          /\ (val r = inl unsupported -> fn_name extractor ∈ tail)).
Proof.
  cbn zeta.
  destruct (extract_log H path data_dir file_list_file w)
    as (head & tail & tried & rest & Ht & Hhead & _ & Hsplit & Hnames & _ & Hend).
  cbn zeta in *.
  pose proof (registry_names_distinct H) as Hnd.
  rewrite Hsplit, map_app in Hnd.
  exists (callees head), (callees tail), (map fn_name rest).
  assert (Hrest : val (extract_data_files H path data_dir file_list_file w)
                  = inl unsupported -> rest = []).
  { destruct Hend as [(Hv & _)|(_ & Hr & _)]; [congruence|auto]. }
  split; [unfold callees; now rewrite Ht, map_app|].
  split; [destruct Hhead as [(_ & ->)|(f & _ & ->)]; cbn; lia|].
  split; [rewrite Hnames; now apply NoDup_app in Hnd as (Hnd & _)|].
  split; [now rewrite Hsplit, map_app, Hnames|].
  split; [intros Hv; now rewrite (Hrest Hv)|].
  intros extractor e Hhint Hraised.
  destruct Hhead as [(Hnone & _)|(f & Hf & ->)]; [congruence|].
  rewrite Hhint in Hf. injection Hf as <-.
  split; [reflexivity|]. intros Hv.
  rewrite Hnames. rewrite (Hrest Hv), app_nil_r in Hsplit.
  rewrite <- Hsplit. apply list_elem_of_fmap_2.
  destruct (hinted_cases H path) as [Hnone|(g & Hg & Hin)]; [congruence|].
  rewrite Hhint in Hg. now injection Hg as ->.
Qed.

(** ** Which extractor can succeed *)

Section Only_tar.

Context (H : Host).

Lemma sweep_stubs (a b c : string) (w : World H) :
  sweep H (stubs H) [a; b; c] w = Run (inr false) w (map (refused H) (stubs H)).
Proof. reflexivity. Qed.

(** The sweep of the registry of the module, run symbolically. *)
Lemma sweep_run (path data_dir file_list_file : string) (w : World H) :
  let t := tar_extractor_body H path data_dir file_list_file w in
  sweep H (dict_values (extractor_map H)) [path; data_dir; file_list_file] w
  = if succeeded (val t)
    then Run (inr true) (world t) [record_of H (tar_extractor H) t]
    else Run (inr false) (world t)
           (record_of H (tar_extractor H) t :: map (refused H) (stubs H)).
Proof.
  cbn zeta. rewrite registry_values. cbn [sweep].
  unfold bind, try_extractor. rewrite call_tar.
  destruct (tar_extractor_body H path data_dir file_list_file w) as [[e|[]] w1 tr];
    cbn [succeeded val world trace]; cbv beta iota.
  - now rewrite sweep_stubs.
  - reflexivity.
Qed.

Lemma unit_result (v : exn + unit) : succeeded v = true <-> v = inr tt.
Proof. destruct v as [e|[]]; cbn; split; congruence. Qed.

Lemma stub_is_not_tar (extractor : pyfun H) :
  extractor ∈ stubs H -> fn_name extractor <> "tar_extractor".
Proof.
  unfold stubs. rewrite !elem_of_cons, elem_of_nil.
  intros [->|[->|[->|[->|[]]]]]; discriminate.
Qed.

End Only_tar.

(** C4. The four extractors with one parameter raise [TypeError] on the
    three arguments of the dispatcher, before their body runs and for
    every input; so every attempt that is not [tar_extractor]'s ends in
    that error, [extract_data_files] returns exactly when an attempt of
    [tar_extractor] raised nothing, and it does return when
    [tar_extractor] raises nothing on the input as the call finds it. The
    only other way to return is the second attempt the sweep gives a
    hinted [tar_extractor] that raised. *)
Theorem only_tar_extractor_can_succeed (H : Host)
    (path data_dir file_list_file : string) (w : World H) :
  let r := extract_data_files H path data_dir file_list_file w in
  let t := tar_extractor_body H path data_dir file_list_file w in
  (forall extractor a b c w',
      extractor ∈ stubs H ->
      call H extractor [a; b; c] w'
      = Run (inl (TypeError (fn_name extractor
                ++ "() takes 1 positional argument but 3 were given"))) w' [])
  /\ (forall a, a ∈ trace r -> callee a <> "tar_extractor" ->
        io a = [] /\ exists msg, outcome a = Some (TypeError msg))
  /\ (val r = inr tt <->
      exists a, a ∈ trace r /\ callee a = "tar_extractor" /\ outcome a = None)
  /\ (val t = inr tt -> val r = inr tt)
  /\ (val r = inr tt ->
      val t = inr tt
      \/ (hinted H path = Some (Some (tar_extractor H))
          /\ val (tar_extractor_body H path data_dir file_list_file (world t))
             = inr tt)).
Proof.
  cbn zeta. set (args := [path; data_dir; file_list_file]).
  assert (Hkinds : forall a,
    a ∈ trace (extract_data_files H path data_dir file_list_file w) ->
    callee a = "tar_extractor"
    \/ (callee a <> "tar_extractor" /\ io a = []
        /\ exists msg, outcome a = Some (TypeError msg))).
  { destruct (extract_log H path data_dir file_list_file w)
      as (head & tail & tried & rest & _ & _ & _ & _ & _ & Hmade & _).
    cbn zeta in Hmade. rewrite Forall_forall in Hmade.
    intros a Ha. destruct (made_by_kinds H _ _ _ a (Hmade a Ha))
      as [[Hc _]|(Hc & Hio & Ho)]; [now left|right].
    apply list_elem_of_fmap in Hc as (f & Hname & Hf).
    split; [rewrite Hname; now apply stub_is_not_tar|]. eauto. }
  split; [intros; now apply call_stub|].
  split; [intros a Ha Hne; destruct (Hkinds a Ha) as [?|(_ & ? & ?)]; [congruence|auto]|].
  split.
  { (* returns exactly when an attempt of tar_extractor raised nothing *)
    destruct (extract_log H path data_dir file_list_file w)
      as (head & tail & tried & rest & _ & _ & _ & _ & _ & _ & Hend).
    cbn zeta in Hend. split.
    - intros Hv. destruct Hend as [(_ & before & a & Ht & _ & Ha)|(Hv' & _)];
        [|congruence].
      assert (Hin : a ∈ trace (extract_data_files H path data_dir file_list_file w)).
      { rewrite Ht. apply elem_of_app. right. apply elem_of_cons. now left. }
      exists a. split; [exact Hin|]. split; [|exact Ha].
      destruct (Hkinds a Hin) as [?|(_ & _ & msg & Hmsg)]; congruence.
    - intros (a & Hin & _ & Ha).
      destruct Hend as [(Hv & _)|(_ & _ & Hall)]; [exact Hv|].
      rewrite Forall_forall in Hall. now destruct (Hall a Hin). }
  (* the worlds of the attempts of tar_extractor *)
  pose proof (sweep_run H path data_dir file_list_file) as Hsweep. cbn zeta in Hsweep.
  destruct (hinted_attempt_spec H path args w) as [[Hh Hr1]|(f & Hh & Hf & Hr1)].
  - (* no hint *)
    rewrite (extract_miss H path data_dir file_list_file w)
      by (fold args; now rewrite Hr1).
    fold args. rewrite Hr1. cbn [val world trace]. rewrite Hsweep.
    destruct (val (tar_extractor_body H path data_dir file_list_file w))
      as [e|[]]; cbn; split; try congruence; auto.
  - cbn zeta in Hr1. rewrite registry_values in Hf.
    apply elem_of_cons in Hf as [->|Hf].
    + (* the hint is tar_extractor *)
      unfold args in Hr1. rewrite call_tar in Hr1. fold args in Hr1.
      destruct (val (tar_extractor_body H path data_dir file_list_file w))
        as [e|[]] eqn:Ht; cbn [succeeded] in Hr1.
      * rewrite (extract_miss H path data_dir file_list_file w)
          by (fold args; now rewrite Hr1).
        fold args. rewrite Hr1. cbn [val world trace]. rewrite Hsweep.
        split; [discriminate|]. intros Hv. right. split; [exact Hh|].
        destruct (val (tar_extractor_body H path data_dir file_list_file
                         (world (tar_extractor_body H path data_dir
                                   file_list_file w)))) as [e'|[]];
          cbn in Hv; congruence.
      * rewrite (extract_hit H path data_dir file_list_file w)
          by (fold args; now rewrite Hr1).
        cbn [val]. auto.
    + (* the hint is a stub: it changes nothing *)
      unfold args in Hr1. rewrite (call_stub H f _ _ _ w Hf) in Hr1.
      cbn [val world succeeded] in Hr1. fold args in Hr1.
      rewrite (extract_miss H path data_dir file_list_file w)
        by (fold args; now rewrite Hr1).
      fold args. rewrite Hr1. cbn [val world trace]. rewrite Hsweep.
      destruct (val (tar_extractor_body H path data_dir file_list_file w))
        as [e|[]]; cbn; split; try congruence; auto.
Qed.

(** ** What the runs write *)

Ltac among Hin :=
  repeat (apply elem_of_cons in Hin as [Hin|Hin]; [try discriminate Hin|]);
  try (apply elem_of_nil in Hin; contradiction).

Lemma protocol_extractall (path data_dir file_list_file : string)
    (io : list effect) (o : option exn) :
  tar_protocol path data_dir file_list_file io o ->
  forall d e, ExtractAll d e ∈ io ->
    d = data_dir /\ exists doc, JsonDump file_list_file doc None ∈ io.
Proof.
  intros Hp d e Hin. destruct Hp; among Hin.
  injection Hin as -> _. split; [reflexivity|]. exists doc.
  rewrite !elem_of_cons. tauto.
Qed.

Lemma protocol_dumped (path data_dir file_list_file : string)
    (io : list effect) (o : option exn) :
  tar_protocol path data_dir file_list_file io o ->
  forall fd, fd ∈ omap dumped io ->
    exists ms doc, fd = (file_list_file, doc)
      /\ omap enumerated io = [ms] /\ for_members ms [] = inr doc.
Proof.
  intros Hp fd Hin. destruct Hp; cbn in Hin;
    try (apply elem_of_nil in Hin; contradiction).
  - destruct d; cbn in Hin; among Hin. subst fd. exists ms, doc. auto.
  - among Hin. subst fd. exists ms, doc. auto.
Qed.

Lemma protocol_done (path data_dir file_list_file : string) (io : list effect) :
  tar_protocol path data_dir file_list_file io None ->
  exists ms doc,
    for_members ms [] = inr doc
    /\ io = [Print "1: tar"; TarOpen path None; GetMembers (inr ms);
             OpenW file_list_file None; JsonDump file_list_file doc None;
             FileExit file_list_file None; ExtractAll data_dir None;
             TarExit None].
Proof.
  intros Hp. inversion Hp as [e Hio Ho|e x Hio Ho|ms e x Hl Hio Ho
                             |ms doc e x Hl Hio Ho|ms doc d c e x Hl Hd Hio Ho
                             |ms doc e x Hl Hio Ho];
    try (destruct x; discriminate Ho).
  destruct x; [discriminate Ho|]. cbn in Ho. subst e. eauto.
Qed.

(** The claim as the specification words it: a run that fails has created
    no manifest. With a good archive and a target directory that is in
    fact a regular file, [tar_extractor] writes the manifest, fails in
    [extractall], and the run ends in the error with the manifest on disk. *)
Lemma failed_run_leaves_manifest :
  let r := extract_data_files RefHost.host "dl/wiki.tar" "out" "files.json"
             RefHost.blocked in
  val r = inl unsupported
  /\ RefHost.fs RefHost.blocked !! "files.json" = None
  /\ (exists doc,
        RefHost.fs (world r) !! "files.json"
        = Some (RefHost.File (RefHost.JsonText doc)))
  /\ Forall failed (trace r)
  /\ exists a doc, a ∈ trace r /\ JsonDump "files.json" doc None ∈ io a.
Proof.
  cbn zeta.
  split; [vm_compute; reflexivity|].
  split; [vm_compute; reflexivity|].
  split; [eexists; vm_compute; reflexivity|].
  split; [vm_compute; repeat constructor; discriminate|].
  eexists. eexists. split.
  - vm_compute. apply elem_of_cons. left. reflexivity.
  - cbn [io]. rewrite !elem_of_cons. do 4 right. left. reflexivity.
Qed.

(** C6, amended. Only attempts of [tar_extractor] write: the other
    extractors touch nothing. Within an attempt the manifest is written,
    in full, before [extractall] is called, so the target directory is
    never written without the manifest. A run that returns has had both
    written by its last attempt, the one that raised nothing. A run that
    ends in the error is not thereby free of a manifest: the statement
    says nothing against a failed attempt that wrote one. *)
Theorem only_tar_extractor_writes (H : Host)
    (path data_dir file_list_file : string) (w : World H) :
  let r := extract_data_files H path data_dir file_list_file w in
  (forall a, a ∈ trace r -> callee a <> "tar_extractor" -> io a = [])
  /\ (forall a d e, a ∈ trace r -> ExtractAll d e ∈ io a ->
        d = data_dir /\ exists doc, JsonDump file_list_file doc None ∈ io a)
  /\ (val r = inr tt ->
      exists before a doc,
        trace r = before ++ [a]
        /\ Forall failed before
        /\ callee a = "tar_extractor" /\ outcome a = None
        /\ JsonDump file_list_file doc None ∈ io a
        /\ ExtractAll data_dir None ∈ io a).
Proof.
  cbn zeta.
  destruct (extract_log H path data_dir file_list_file w)
    as (head & tail & tried & rest & _ & _ & _ & _ & _ & Hmade & Hend).
  cbn zeta in Hmade, Hend. rewrite Forall_forall in Hmade.
  split; [|split].
  - intros a Ha Hne.
    destruct (made_by_kinds H _ _ _ a (Hmade a Ha)) as [[Hc _]|(_ & Hio & _)];
      [congruence|exact Hio].
  - intros a d e Ha Hin.
    destruct (made_by_kinds H _ _ _ a (Hmade a Ha)) as [[_ Hp]|(_ & Hio & _)].
    + exact (protocol_extractall _ _ _ _ _ Hp d e Hin).
    + rewrite Hio in Hin. now apply elem_of_nil in Hin.
  - intros Hv.
    destruct Hend as [(_ & before & a & Ht & Hb & Ha)|(Hv' & _)]; [|congruence].
    assert (Hin : a ∈ trace (extract_data_files H path data_dir file_list_file w)).
    { rewrite Ht. apply elem_of_app. right. apply elem_of_cons. now left. }
    destruct (made_by_kinds H _ _ _ a (Hmade a Hin)) as [[Hc Hp]|(_ & _ & Ho)];
      [|congruence].
    rewrite Ha in Hp. destruct (protocol_done _ _ _ _ Hp) as (ms & doc & _ & Hio).
    exists before, a, doc. repeat split; auto; rewrite Hio, !elem_of_cons; tauto.
Qed.

(** ** The manifest of a run *)

Section Manifest_of_run.

Context (H : Host).

Lemma run_dumps (path data_dir file_list_file : string) (w : World H) :
  let r := extract_data_files H path data_dir file_list_file w in
  forall fd, fd ∈ manifests_written (trace r) ->
    exists ms doc, fd = (file_list_file, doc)
      /\ ms ∈ archives_read (trace r) /\ for_members ms [] = inr doc.
Proof.
  cbn zeta. intros fd Hin.
  destruct (extract_log H path data_dir file_list_file w)
    as (head & tail & tried & rest & _ & _ & _ & _ & _ & Hmade & _).
  cbn zeta in Hmade. rewrite Forall_forall in Hmade.
  unfold manifests_written in Hin.
  apply list_elem_of_In, in_flat_map in Hin as (a & Ha & Hfd).
  apply list_elem_of_In in Ha, Hfd.
  destruct (made_by_kinds H _ _ _ a (Hmade a Ha)) as [[_ Hp]|(_ & Hio & _)].
  - destruct (protocol_dumped _ _ _ _ _ Hp fd Hfd) as (ms & doc & -> & Hms & Hdoc).
    exists ms, doc. repeat split; auto.
    unfold archives_read. apply list_elem_of_In, in_flat_map.
    exists a. split; [now apply list_elem_of_In|].
    apply list_elem_of_In. rewrite Hms. apply elem_of_cons. now left.
  - rewrite Hio in Hfd. now apply elem_of_nil in Hfd.
Qed.

Lemma run_last_dump (path data_dir file_list_file : string) (w : World H) :
  let r := extract_data_files H path data_dir file_list_file w in
  val r = inr tt ->
  exists doc, last (manifests_written (trace r)) = Some (file_list_file, doc).
Proof.
  cbn zeta. intros Hv.
  destruct (extract_log H path data_dir file_list_file w)
    as (head & tail & tried & rest & _ & _ & _ & _ & _ & Hmade & Hend).
  cbn zeta in Hmade, Hend. rewrite Forall_forall in Hmade.
  destruct Hend as [(_ & before & a & Ht & _ & Ha)|(Hv' & _)]; [|congruence].
  assert (Hin : a ∈ trace (extract_data_files H path data_dir file_list_file w)).
  { rewrite Ht. apply elem_of_app. right. apply elem_of_cons. now left. }
  destruct (made_by_kinds H _ _ _ a (Hmade a Hin)) as [[_ Hp]|(_ & _ & Ho)];
    [|congruence].
  rewrite Ha in Hp. destruct (protocol_done _ _ _ _ Hp) as (ms & doc & _ & Hio).
  exists doc. rewrite Ht. unfold manifests_written.
  rewrite flat_map_app. cbn [flat_map]. rewrite Hio. cbn. apply last_snoc.
Qed.

End Manifest_of_run.

(** C10. Two runs that return, on a download [tarfile] reads the same
    members out of in both, with any two target directories and manifest
    paths and in any two worlds: each run has written a manifest, the two
    hold the same document, and that document is a function of the member
    list alone. *)
Theorem manifest_is_function_of_archive (H : Host)
    (path data_dir1 file1 data_dir2 file2 : string) (w1 w2 : World H)
    (ms : list TarInfo) :
  let r1 := extract_data_files H path data_dir1 file1 w1 in
  let r2 := extract_data_files H path data_dir2 file2 w2 in
  (forall ms', ms' ∈ archives_read (trace r1) ++ archives_read (trace r2) ->
     ms' = ms) ->
  val r1 = inr tt ->
  val r2 = inr tt ->
  exists doc,
    for_members ms [] = inr doc
    /\ last (manifests_written (trace r1)) = Some (file1, doc)
    /\ last (manifests_written (trace r2)) = Some (file2, doc)
    /\ (forall fd, fd ∈ manifests_written (trace r1) -> fd = (file1, doc))
    /\ (forall fd, fd ∈ manifests_written (trace r2) -> fd = (file2, doc)).
Proof.
  cbn zeta. intros Hsame Hv1 Hv2.
  assert (Hall1 : forall fd doc,
    for_members ms [] = inr doc ->
    fd ∈ manifests_written (trace (extract_data_files H path data_dir1 file1 w1)) ->
    fd = (file1, doc)).
  { intros fd doc Hdoc Hfd.
    destruct (run_dumps H path data_dir1 file1 w1 fd Hfd)
      as (ms' & doc' & -> & Hms & Hdoc').
    rewrite (Hsame ms') in Hdoc' by (apply elem_of_app; now left). congruence. }
  assert (Hall2 : forall fd doc,
    for_members ms [] = inr doc ->
    fd ∈ manifests_written (trace (extract_data_files H path data_dir2 file2 w2)) ->
    fd = (file2, doc)).
  { intros fd doc Hdoc Hfd.
    destruct (run_dumps H path data_dir2 file2 w2 fd Hfd)
      as (ms' & doc' & -> & Hms & Hdoc').
    rewrite (Hsame ms') in Hdoc' by (apply elem_of_app; now right). congruence. }
  destruct (run_last_dump H path data_dir1 file1 w1 Hv1) as (doc1 & Hlast1).
  destruct (run_last_dump H path data_dir2 file2 w2 Hv2) as (doc2 & Hlast2).
  pose proof (last_Some_elem_of _ _ Hlast1) as Hin1.
  pose proof (last_Some_elem_of _ _ Hlast2) as Hin2.
  destruct (run_dumps H path data_dir1 file1 w1 _ Hin1)
    as (ms' & doc' & Heq & Hms & Hdoc).
  injection Heq as <-.
  rewrite (Hsame ms') in Hdoc by (apply elem_of_app; now left).
  exists doc1. split; [exact Hdoc|]. split; [exact Hlast1|].
  split; [|split]; eauto.
  rewrite Hlast2. f_equal. exact (Hall2 _ _ Hdoc Hin2).
Qed.

Lemma manifest_is_function_of_archive_witness :
  let r1 := extract_data_files RefHost.host "dl/wiki.tar" "out" "files.json"
              RefHost.good in
  let r2 := extract_data_files RefHost.host "dl/wiki.tar" "again" "again.json"
              (world r1) in
  (forall ms', ms' ∈ archives_read (trace r1) ++ archives_read (trace r2) ->
     ms' = RefHost.corpus)
  /\ val r1 = inr tt
  /\ val r2 = inr tt
  /\ exists doc,
       for_members RefHost.corpus [] = inr doc
       /\ last (manifests_written (trace r1)) = Some ("files.json", doc)
       /\ last (manifests_written (trace r2)) = Some ("again.json", doc)
       /\ (forall fd, fd ∈ manifests_written (trace r1) -> fd = ("files.json", doc))
       /\ (forall fd, fd ∈ manifests_written (trace r2) -> fd = ("again.json", doc)).
Proof.
  cbn zeta.
  assert (Hsame : forall ms',
    ms' ∈ archives_read (trace (extract_data_files RefHost.host "dl/wiki.tar"
                                  "out" "files.json" RefHost.good))
          ++ archives_read (trace (extract_data_files RefHost.host "dl/wiki.tar"
               "again" "again.json"
               (world (extract_data_files RefHost.host "dl/wiki.tar" "out"
                         "files.json" RefHost.good)))) ->
    ms' = RefHost.corpus).
  { intros ms'.
    replace (archives_read _ ++ archives_read _)
      with [RefHost.corpus; RefHost.corpus] by (vm_compute; reflexivity).
    rewrite !elem_of_cons, elem_of_nil. intuition. }
  assert (Hv1 : val (extract_data_files RefHost.host "dl/wiki.tar" "out"
                       "files.json" RefHost.good) = inr tt)
    by (vm_compute; reflexivity).
  assert (Hv2 : val (extract_data_files RefHost.host "dl/wiki.tar" "again"
                       "again.json"
                       (world (extract_data_files RefHost.host "dl/wiki.tar"
                                 "out" "files.json" RefHost.good))) = inr tt)
    by (vm_compute; reflexivity).
  split; [exact Hsame|]. split; [exact Hv1|]. split; [exact Hv2|].
  exact (manifest_is_function_of_archive RefHost.host "dl/wiki.tar" "out"
           "files.json" "again" "again.json" RefHost.good _ RefHost.corpus
           Hsame Hv1 Hv2).
Defined.

(** ** The tar extractor *)

Lemma prefix_app (s rest : string) : String.prefix s (s ++ rest) = true.
Proof.
  induction s as [|a s IH]; simpl.
  - now destruct rest.
  - destruct (ascii_dec a a); [exact IH|congruence].
Qed.

Lemma contains_here (s rest : string) : contains s (s ++ rest) = true.
Proof.
  pose proof (prefix_app s rest) as Hp.
  destruct (s ++ rest)%string; cbn [contains]; rewrite Hp; reflexivity.
Qed.

Lemma contains_self (s : string) : contains s s = true.
Proof.
  assert (Hp : String.prefix s s = true).
  { induction s as [|a s IH]; simpl; [reflexivity|].
    destruct (ascii_dec a a); [exact IH|congruence]. }
  destruct s; cbn [contains]; rewrite Hp; reflexivity.
Qed.

Lemma contains_later (s before hay : string) :
  contains s hay = true -> contains s (before ++ hay) = true.
Proof.
  intros Hc. induction before as [|a before IH]; [exact Hc|].
  change (String a before ++ hay)%string with (String a (before ++ hay)).
  cbn [contains]. rewrite IH. apply orb_true_r.
Qed.

Lemma unarchive_message_mentions (path : string) (e : exn) :
  contains path (unarchive_message path e) = true
  /\ contains (exn_str e) (unarchive_message path e) = true.
Proof.
  unfold unarchive_message. split.
  - do 2 apply contains_later. apply contains_here.
  - do 7 apply contains_later. apply contains_self.
Qed.

(** The claim as the specification words it, for every path that cannot be
    opened: a path with no file behind it makes [tarfile.open] raise
    [FileNotFoundError], which the [except tarfile.ReadError] clause lets
    through as it is. *)
Lemma missing_file_error_is_not_wrapped :
  let r := tar_extractor_body RefHost.host "dl/gone.tar" "out" "files.json"
             (RefHost.disk []) in
  (exists e, fst (tarfile_open RefHost.host "dl/gone.tar"
                    (print RefHost.host "1: tar" (RefHost.disk []))) = inl e)
  /\ val r = inl (OtherException "FileNotFoundError"
                    "[Errno 2] No such file or directory: 'dl/gone.tar'")
  /\ ~ exists msg, val r = inl (ReadError msg).
Proof.
  cbn zeta. split; [eexists; vm_compute; reflexivity|].
  assert (Hv : val (tar_extractor_body RefHost.host "dl/gone.tar" "out"
                      "files.json" (RefHost.disk []))
               = inl (OtherException "FileNotFoundError"
                        "[Errno 2] No such file or directory: 'dl/gone.tar'"))
    by (vm_compute; reflexivity).
  split; [exact Hv|]. rewrite Hv. intros [msg Hmsg]. discriminate.
Qed.

(** C8, amended. When [tarfile.open] raises, the run of [tar_extractor]
    is over with that: it has printed its line and called [tarfile.open],
    nothing is written and nothing extracted. A [tarfile.ReadError] comes
    out as a new [ReadError] whose message holds the path and the message
    of the cause; any other exception comes out unchanged. *)
Theorem open_failure_stops_tar_extractor (H : Host)
    (path data_dir file_list_file : string) (w w1 : World H) (e : exn) :
  tarfile_open H path (print H "1: tar" w) = (inl e, w1) ->
  let r := tar_extractor_body H path data_dir file_list_file w in
  r = Run (inl (if is_ReadError e
                then ReadError (unarchive_message path e) else e))
          w1 [Print "1: tar"; TarOpen path (Some e)]
  /\ (is_ReadError e = true ->
      exists msg, val r = inl (ReadError msg)
        /\ contains path msg = true /\ contains (exn_str e) msg = true).
Proof.
  intros Hopen. cbn zeta.
  assert (Hr : tar_extractor_body H path data_dir file_list_file w
               = Run (inl (if is_ReadError e
                           then ReadError (unarchive_message path e) else e))
                     w1 [Print "1: tar"; TarOpen path (Some e)]).
  { unfold tar_extractor_body, bind, try_except, host_call, do_print, raise.
    rewrite Hopen. cbn [error_of]. destruct (is_ReadError e); reflexivity. }
  split; [exact Hr|]. intros He. rewrite Hr, He.
  exists (unarchive_message path e). cbn [val].
  split; [reflexivity|]. apply unarchive_message_mentions.
Qed.

Lemma open_failure_stops_tar_extractor_witness :
  tarfile_open RefHost.host "dl/wiki.tar"
    (print RefHost.host "1: tar" RefHost.corrupt)
  = (inl (ReadError "file could not be opened successfully"),
     print RefHost.host "1: tar" RefHost.corrupt)
  /\ let e := ReadError "file could not be opened successfully" in
     let r := tar_extractor_body RefHost.host "dl/wiki.tar" "out" "files.json"
                RefHost.corrupt in
     r = Run (inl (if is_ReadError e
                   then ReadError (unarchive_message "dl/wiki.tar" e) else e))
             (print RefHost.host "1: tar" RefHost.corrupt)
             [Print "1: tar"; TarOpen "dl/wiki.tar" (Some e)]
     /\ (is_ReadError e = true ->
         exists msg, val r = inl (ReadError msg)
           /\ contains "dl/wiki.tar" msg = true
           /\ contains (exn_str e) msg = true).
Proof.
  split; [reflexivity|].
  apply (open_failure_stops_tar_extractor RefHost.host "dl/wiki.tar" "out"
           "files.json" RefHost.corrupt). reflexivity.
Defined.

(** The claim as the specification words it, one entry per member: an
    archive that holds a name twice gets one entry for the two members,
    with the size of the second. *)
Lemma repeated_name_has_one_entry :
  let r := tar_extractor_body RefHost.host "dl/logs.tar" "out" "files.json"
             RefHost.repeated in
  val r = inr tt
  /\ omap enumerated (trace r) = [RefHost.appended]
  /\ omap dumped (trace r)
     = [("files.json", [("a.txt", [("type", 0%Z); ("size", 5%Z)])])]
  /\ length RefHost.appended = 2
  /\ forall doc, ("files.json", doc) ∈ omap dumped (trace r) ->
       length doc <> length RefHost.appended.
Proof.
  cbn zeta.
  assert (Hd : omap dumped (trace (tar_extractor_body RefHost.host "dl/logs.tar"
                                     "out" "files.json" RefHost.repeated))
               = [("files.json", [("a.txt", [("type", 0%Z); ("size", 5%Z)])])])
    by (vm_compute; reflexivity).
  split; [vm_compute; reflexivity|]. split; [vm_compute; reflexivity|].
  split; [exact Hd|]. split; [reflexivity|].
  intros doc Hin. rewrite Hd in Hin. apply list_elem_of_singleton in Hin.
  injection Hin as ->. cbn. lia.
Qed.

(** A member with a type flag that is no decimal digit, as the regular
    files of a V7 archive have, stops the loop at [int]: no manifest. *)
Lemma v7_member_raises :
  let r := tar_extractor_body RefHost.host "dl/old.tar" "out" "files.json"
             (RefHost.disk [("dl/old.tar", RefHost.File (RefHost.TarBytes RefHost.v7))]) in
  (exists msg, val r = inl (ValueError msg))
  /\ omap dumped (trace r) = [].
Proof.
  cbn zeta. split; [eexists|]; vm_compute; reflexivity.
Qed.

(** C7, amended. For an archive that opens and enumerates, whose member
    names are pairwise distinct and whose type flags are decimal digits,
    and a manifest file that opens for writing: the document handed to
    [json.dump] has one entry per member, under the member's name, in the
    order of the archive; the entry holds the type flag as an integer and
    holds a size exactly when [isreg] says the member is a regular file. *)
Theorem manifest_lists_members_in_order (H : Host)
    (path data_dir file_list_file : string) (w w1 w2 w3 : World H)
    (tar : TarFile H) (ms : list TarInfo) (f : TextFile H) :
  tarfile_open H path (print H "1: tar" w) = (inr tar, w1) ->
  getmembers H tar w1 = (inr ms, w2) ->
  open_w H file_list_file w2 = (inr f, w3) ->
  NoDup (map name ms) ->
  Forall (fun member => is_digit (type member) = true) ms ->
  let doc := map manifest_entry ms in
  (exists err rest,
     trace (tar_extractor_body H path data_dir file_list_file w)
     = [Print "1: tar"; TarOpen path None; GetMembers (inr ms);
        OpenW file_list_file None; JsonDump file_list_file doc err] ++ rest
     /\ err = error_of (fst (json_dump H doc f w3)))
  /\ dict_keys doc = map name ms
  /\ Forall2 (fun member entry =>
                fst entry = name member
                /\ dict_get "type" (snd entry)
                   = Some (Z.of_N (N_of_ascii (type member)) - 48)%Z
                /\ dict_get "size" (snd entry)
                   = (if isreg member then Some (size member) else None)
                /\ length (snd entry) = (if isreg member then 2 else 1))
       ms doc.
Proof.
  intros Hopen Hmem Hw Hnd Hdig. cbn zeta.
  assert (Hloop : for_members ms [] = inr (map manifest_entry ms)).
  { apply (for_members_distinct ms [] Hnd Hdig). intros m _. apply not_elem_of_nil. }
  split; [|split].
  - unfold tar_extractor_body, bind, try_except, with_, host_call, do_print,
      lift, raise.
    rewrite Hopen. cbv beta iota. rewrite Hmem. cbv beta iota.
    rewrite Hloop. cbv beta iota. rewrite Hw. cbv beta iota.
    destruct (json_dump H (map manifest_entry ms) f w3) as [[d|[]] w4];
      destruct (textfile_exit H f w4) as [[c|[]] w5]; cbv beta iota;
      try destruct (extractall H tar data_dir w5) as [[x|[]] w6]; cbv beta iota;
      match goal with
      | |- context [tarfile_exit H tar ?w'] =>
          destruct (tarfile_exit H tar w') as [[y|[]] w7]
      end; cbn [trace app error_of fst]; eexists; eexists; split; reflexivity.
  - unfold dict_keys. rewrite map_map. reflexivity.
  - clear. induction ms as [|member rest IH]; constructor; [|exact IH].
    unfold manifest_entry. cbn [fst snd].
    destruct (isreg member); cbn; auto.
Qed.

Lemma manifest_lists_members_in_order_witness :
  tarfile_open RefHost.host "dl/wiki.tar"
    (print RefHost.host "1: tar" RefHost.good)
  = (inr RefHost.corpus, print RefHost.host "1: tar" RefHost.good)
  /\ getmembers RefHost.host RefHost.corpus
       (print RefHost.host "1: tar" RefHost.good)
     = (inr RefHost.corpus, print RefHost.host "1: tar" RefHost.good)
  /\ open_w RefHost.host "files.json" (print RefHost.host "1: tar" RefHost.good)
     = (inr "files.json",
        snd (open_w RefHost.host "files.json"
               (print RefHost.host "1: tar" RefHost.good)))
  /\ NoDup (map name RefHost.corpus)
  /\ Forall (fun member => is_digit (type member) = true) RefHost.corpus
  /\ let doc := map manifest_entry RefHost.corpus in
     (exists err rest,
        trace (tar_extractor_body RefHost.host "dl/wiki.tar" "out" "files.json"
                 RefHost.good)
        = [Print "1: tar"; TarOpen "dl/wiki.tar" None;
           GetMembers (inr RefHost.corpus);
           OpenW "files.json" None; JsonDump "files.json" doc err] ++ rest
        /\ err = error_of (fst (json_dump RefHost.host doc "files.json"
                 (snd (open_w RefHost.host "files.json"
                         (print RefHost.host "1: tar" RefHost.good))))))
     /\ dict_keys doc = map name RefHost.corpus
     /\ Forall2 (fun member entry =>
                   fst entry = name member
                   /\ dict_get "type" (snd entry)
                      = Some (Z.of_N (N_of_ascii (type member)) - 48)%Z
                   /\ dict_get "size" (snd entry)
                      = (if isreg member then Some (size member) else None)
                   /\ length (snd entry) = (if isreg member then 2 else 1))
          RefHost.corpus doc.
Proof.
  assert (Hnd : NoDup (map name RefHost.corpus)).
  { cbn. repeat (apply NoDup_cons_2;
                 [rewrite ?elem_of_cons, elem_of_nil; intuition discriminate|]).
    apply NoDup_nil_2. }
  assert (Hdig : Forall (fun member => is_digit (type member) = true)
                   RefHost.corpus)
    by (repeat constructor).
  split; [reflexivity|]. split; [reflexivity|]. split; [reflexivity|].
  split; [exact Hnd|]. split; [exact Hdig|].
  exact (manifest_lists_members_in_order RefHost.host "dl/wiki.tar" "out"
           "files.json" RefHost.good _ _ _ RefHost.corpus RefHost.corpus
           "files.json" eq_refl eq_refl eq_refl Hnd Hdig).
Defined.

(** * Further properties *)

(** ** The merged registry *)

Lemma dict_get_set (k k' : string) {V} (v : V) (d : pydict V) :
  dict_get k (dict_set k' v d) = if String.eqb k k' then Some v else dict_get k d.
Proof.
  induction d as [|[k0 v0] d IH]; simpl.
  - reflexivity.
  - destruct (String.eqb_spec k' k0) as [->|Hne]; simpl.
    + destruct (String.eqb k k0); reflexivity.
    + rewrite IH. destruct (String.eqb_spec k k0) as [->|_]; [|reflexivity].
      destruct (String.eqb_spec k0 k') as [Heq|_]; [congruence|reflexivity].
Qed.

Lemma dict_get_none {V} (k : string) (d : pydict V) :
  k ∉ dict_keys d -> dict_get k d = None.
Proof.
  induction d as [|[k0 v0] d IH]; simpl; intros Hk; [reflexivity|].
  apply not_elem_of_cons in Hk as [Hne Hk].
  destruct (String.eqb_spec k k0); [congruence|auto].
Qed.

(** X1. In [{**a, **b}] a key of [b] has the value [b] gives it, also when
    [a] has the key too, and every other key keeps the value [a] gives
    it: on a key present in both families the merged registry would hold
    the compression extractor. *)
Theorem dict_merge_later_wins {V} (a b : pydict V) (k : string) :
  NoDup (dict_keys b) ->
  dict_get k (dict_merge a b)
  = match dict_get k b with Some v => Some v | None => dict_get k a end.
Proof.
  unfold dict_merge. revert a.
  induction b as [|[k0 v0] b IH]; intros a Hnd; simpl; [reflexivity|].
  simpl in Hnd. apply NoDup_cons in Hnd as [Hk0 Hnd].
  rewrite (IH _ Hnd), dict_get_set.
  destruct (String.eqb_spec k k0) as [->|_]; [|reflexivity].
  now rewrite (dict_get_none _ _ Hk0).
Qed.

Lemma dict_merge_later_wins_witness :
  NoDup (dict_keys [("gzip", 2); ("xz", 3)])
  /\ dict_get "gzip" (dict_merge [("application/zip", 0); ("gzip", 1)]
                        [("gzip", 2); ("xz", 3)])
     = match dict_get "gzip" [("gzip", 2); ("xz", 3)] with
       | Some v => Some v
       | None => dict_get "gzip" [("application/zip", 0); ("gzip", 1)]
       end.
Proof.
  assert (Hnd : NoDup (dict_keys [("gzip", 2); ("xz", 3)])).
  { cbn. repeat (apply NoDup_cons_2;
                 [rewrite ?elem_of_cons, elem_of_nil; intuition discriminate|]).
    apply NoDup_nil_2. }
  split; [exact Hnd|].
  exact (dict_merge_later_wins [("application/zip", 0); ("gzip", 1)]
           [("gzip", 2); ("xz", 3)] "gzip" Hnd).
Defined.

(** ** The manifest of any archive *)

Lemma record_member_result (member : TarInfo) (members members' : manifest) :
  record_member member members = inr members' ->
  is_digit (type member) = true
  /\ members' = dict_set (name member) (snd (manifest_entry member)) members.
Proof.
  intros Hrec. destruct (is_digit (type member)) eqn:Hd.
  - rewrite (record_member_digit _ _ Hd) in Hrec. injection Hrec as <-. auto.
  - destruct (py_int_other _ Hd) as [msg Hmsg].
    unfold record_member in Hrec. now rewrite Hmsg in Hrec.
Qed.

Lemma for_members_app (ms1 ms2 : list TarInfo) : forall members : manifest,
  for_members (ms1 ++ ms2) members
  = match for_members ms1 members with
    | inl e => inl e
    | inr members' => for_members ms2 members'
    end.
Proof.
  induction ms1 as [|member rest IH]; intros members; simpl; [reflexivity|].
  destruct (record_member member members); [reflexivity|apply IH].
Qed.

Lemma for_members_grows (ms : list TarInfo) : forall members doc : manifest,
  for_members ms members = inr doc ->
  exists more, dict_keys doc = dict_keys members ++ more.
Proof.
  induction ms as [|member rest IH]; simpl; intros members doc Hrun.
  - injection Hrun as <-. exists []. now rewrite app_nil_r.
  - destruct (record_member member members) as [e|members'] eqn:Hrec; [discriminate|].
    apply record_member_result in Hrec as [_ ->].
    destruct (IH _ _ Hrun) as [more Hmore]. rewrite Hmore, dict_keys_set.
    case_bool_decide; [eauto|]. rewrite <- app_assoc. eauto.
Qed.

Lemma for_members_other (ms : list TarInfo) : forall (members doc : manifest) k,
  for_members ms members = inr doc ->
  k ∉ map name ms ->
  dict_get k doc = dict_get k members.
Proof.
  induction ms as [|member rest IH]; simpl; intros members doc k Hrun Hk.
  - now injection Hrun as <-.
  - destruct (record_member member members) as [e|members'] eqn:Hrec; [discriminate|].
    apply record_member_result in Hrec as [_ ->].
    apply not_elem_of_cons in Hk as [Hne Hk].
    rewrite (IH _ _ _ Hrun Hk), dict_get_set.
    destruct (String.eqb_spec k (name member)); [congruence|reflexivity].
Qed.

(** X2. Whatever the archive holds, the manifest has no name twice, and
    its names are those of the members: one entry per distinct name. *)
Theorem manifest_has_each_name_once (ms : list TarInfo) (doc : manifest) :
  for_members ms [] = inr doc ->
  NoDup (dict_keys doc)
  /\ (forall k, k ∈ dict_keys doc <-> k ∈ map name ms).
Proof.
  intros Hrun.
  destruct (for_members_keys ms [] doc Hrun (NoDup_nil_2)) as [Hnd Hin].
  split; [exact Hnd|]. intros k. rewrite Hin. cbn. rewrite elem_of_nil. tauto.
Qed.

Lemma manifest_has_each_name_once_witness :
  for_members RefHost.appended []
  = inr [("a.txt", [("type", 0%Z); ("size", 5%Z)])]
  /\ NoDup (dict_keys [("a.txt", [("type", 0%Z); ("size", 5%Z)])])
  /\ (forall k, k ∈ dict_keys [("a.txt", [("type", 0%Z); ("size", 5%Z)])]
                <-> k ∈ map name RefHost.appended).
Proof.
  split; [reflexivity|].
  exact (manifest_has_each_name_once RefHost.appended _ eq_refl).
Defined.

(** X3. Of the members that share a name the last one is the one the
    manifest describes: its type flag, and its size if it is a regular
    file. *)
Theorem manifest_keeps_last_member (before after : list TarInfo)
    (member : TarInfo) (doc : manifest) :
  for_members (before ++ member :: after) [] = inr doc ->
  name member ∉ map name after ->
  dict_get (name member) doc = Some (snd (manifest_entry member)).
Proof.
  intros Hrun Hlast. rewrite for_members_app in Hrun.
  destruct (for_members before []) as [e|members]; [discriminate|].
  simpl in Hrun.
  destruct (record_member member members) as [e|members'] eqn:Hrec; [discriminate|].
  apply record_member_result in Hrec as [_ ->].
  rewrite (for_members_other _ _ _ _ Hrun Hlast). apply dict_get_set_same.
Qed.

Lemma manifest_keeps_last_member_witness :
  let older := {| name := "a.txt"; type := "0"%char; size := 3 |} in
  let newer := {| name := "a.txt"; type := "0"%char; size := 5 |} in
  for_members ([older] ++ newer :: []) []
  = inr [("a.txt", [("type", 0%Z); ("size", 5%Z)])]
  /\ (name newer ∉ map name [])
  /\ dict_get (name newer) [("a.txt", [("type", 0%Z); ("size", 5%Z)])]
     = Some (snd (manifest_entry newer)).
Proof.
  cbn zeta.
  assert (Hlast : "a.txt" ∉ map name []) by apply not_elem_of_nil.
  split; [reflexivity|]. split; [exact Hlast|].
  exact (manifest_keeps_last_member
           [{| name := "a.txt"; type := "0"%char; size := 3 |}] []
           {| name := "a.txt"; type := "0"%char; size := 5 |} _ eq_refl Hlast).
Defined.

(** X4. The manifest of a longer archive starts with the names of the
    manifest of the shorter one, in the same order: a later member adds
    its name at the end or changes an entry in place, it never moves a
    name. With X2, the names stand in the order of their first members. *)
Theorem manifest_names_never_move (ms1 ms2 : list TarInfo) (doc : manifest) :
  for_members (ms1 ++ ms2) [] = inr doc ->
  exists doc1 more,
    for_members ms1 [] = inr doc1
    /\ dict_keys doc = dict_keys doc1 ++ more.
Proof.
  intros Hrun. rewrite for_members_app in Hrun.
  destruct (for_members ms1 []) as [e|doc1]; [discriminate|].
  destruct (for_members_grows _ _ _ Hrun) as [more Hmore]. eauto.
Qed.

Lemma manifest_names_never_move_witness :
  for_members (RefHost.corpus ++ RefHost.appended) []
  = inr (map manifest_entry RefHost.corpus
           ++ [("a.txt", [("type", 0%Z); ("size", 5%Z)])])
  /\ exists doc1 more,
       for_members RefHost.corpus [] = inr doc1
       /\ dict_keys (map manifest_entry RefHost.corpus
                       ++ [("a.txt", [("type", 0%Z); ("size", 5%Z)])])
          = dict_keys doc1 ++ more.
Proof.
  split; [reflexivity|].
  exact (manifest_names_never_move RefHost.corpus RefHost.appended _ eq_refl).
Defined.

(** ** More on one run of [tar_extractor] *)

Lemma for_members_digits (ms : list TarInfo) : forall members doc : manifest,
  for_members ms members = inr doc ->
  Forall (fun member => is_digit (type member) = true) ms.
Proof.
  induction ms as [|member rest IH]; simpl; intros members doc Hrun; [constructor|].
  destruct (record_member member members) as [e|members'] eqn:Hrec; [discriminate|].
  apply record_member_result in Hrec as [Hd _]. constructor; eauto.
Qed.

Lemma for_members_non_digit (ms : list TarInfo) : forall members : manifest,
  Exists (fun member => is_digit (type member) = false) ms ->
  exists msg, for_members ms members = inl (ValueError msg).
Proof.
  induction ms as [|member rest IH]; intros members Hex.
  - inversion Hex.
  - simpl. destruct (is_digit (type member)) eqn:Hd.
    + rewrite (record_member_digit _ _ Hd). apply IH.
      apply Exists_cons in Hex as [Hhead|Hrest]; [congruence|exact Hrest].
    + destruct (py_int_other _ Hd) as [msg Hmsg].
      unfold record_member. rewrite Hmsg. eauto.
Qed.

Lemma protocol_roles (path data_dir file_list_file : string)
    (io : list effect) (o : option exn) :
  tar_protocol path data_dir file_list_file io o ->
  Forall (in_role path data_dir file_list_file) io.
Proof. destruct 1; repeat constructor. Qed.

Lemma protocol_prints (path data_dir file_list_file : string)
    (io : list effect) (o : option exn) :
  tar_protocol path data_dir file_list_file io o ->
  omap printed io = ["1: tar"].
Proof. destruct 1; reflexivity. Qed.

Lemma protocol_write_after_read (path data_dir file_list_file : string)
    (io : list effect) (o : option exn) :
  tar_protocol path data_dir file_list_file io o ->
  existsb is_write io = true ->
  TarOpen path None ∈ io
  /\ exists ms, GetMembers (inr ms) ∈ io
       /\ Forall (fun member => is_digit (type member) = true) ms.
Proof.
  destruct 1 as [e|e x|ms e x Hl|ms doc e x Hl|ms doc d c e x Hl Hd|ms doc e x Hl];
    cbn; intros Hw; try discriminate;
    (split; [rewrite !elem_of_cons; tauto|]);
    exists ms; (split; [rewrite !elem_of_cons; tauto|]);
    exact (for_members_digits _ _ _ Hl).
Qed.

Lemma protocol_released (path data_dir file_list_file : string)
    (io : list effect) (o : option exn) :
  tar_protocol path data_dir file_list_file io o ->
  (TarOpen path None ∈ io <-> exists x, last io = Some (TarExit x))
  /\ (OpenW file_list_file None ∈ io <-> exists c, FileExit file_list_file c ∈ io).
Proof.
  destruct 1; (split; split);
    first [ solve [intros Hin; among Hin]
          | solve [intros [y Hy]; cbn in Hy; discriminate Hy]
          | solve [intros [y Hy]; among Hy]
          | solve [intros _; eexists; reflexivity]
          | solve [intros _; eexists; rewrite !elem_of_cons;
                   repeat (first [left; reflexivity | right])]
          | solve [intros _; rewrite !elem_of_cons; tauto] ].
Qed.

Lemma protocol_non_digit (path data_dir file_list_file : string)
    (io : list effect) (o : option exn) :
  tar_protocol path data_dir file_list_file io o ->
  forall ms, GetMembers (inr ms) ∈ io ->
    Exists (fun member => is_digit (type member) = false) ms ->
    existsb is_write io = false
    /\ (exists e, o = Some e)
    /\ (TarExit None ∈ io -> exists msg, o = Some (ValueError msg)).
Proof.
  destruct 1 as [e|e x|ms' e x Hl|ms' doc e x Hl|ms' doc d c e x Hl Hd|ms' doc e x Hl];
    intros ms Hin Hex; among Hin; injection Hin as ->;
    destruct (for_members_non_digit ms' [] Hex) as [msg Hmsg];
    rewrite Hmsg in Hl; try discriminate Hl.
  injection Hl as <-. split; [reflexivity|]. split.
  - destruct x; cbn; eauto.
  - intros Hexit. among Hexit. injection Hexit as <-. cbn. eauto.
Qed.

Section More_tar_extractor_facts.

Context (H : Host).

(** X5. [tar_extractor] returns exactly when every library call it makes
    raises nothing and every type flag converts: the run is then the
    eight calls from the print to the closing of the archive, with the
    manifest written and the members extracted. *)
Theorem tar_extractor_returns_iff (path data_dir file_list_file : string)
    (w : World H) :
  let r := tar_extractor_body H path data_dir file_list_file w in
  val r = inr tt
  <-> exists ms doc,
        for_members ms [] = inr doc
        /\ trace r
           = [Print "1: tar"; TarOpen path None; GetMembers (inr ms);
              OpenW file_list_file None; JsonDump file_list_file doc None;
              FileExit file_list_file None; ExtractAll data_dir None;
              TarExit None].
Proof.
  cbn zeta.
  pose proof (tar_extractor_follows_protocol H path data_dir file_list_file w) as Hp.
  cbn zeta in Hp. split.
  - intros Hv. rewrite Hv in Hp. exact (protocol_done _ _ _ _ Hp).
  - intros (ms & doc & _ & Ht). rewrite Ht in Hp.
    inversion Hp as [| | | | |ms' doc' e x Hl Hio Ho]; subst.
    destruct (val (tar_extractor_body H path data_dir file_list_file w))
      as [e|[]]; [discriminate Ho|reflexivity].
Qed.

(** X6. A member whose type flag is no decimal digit stops the run in the
    loop, at [int]: the run raises, it is [ValueError] that comes out when
    closing the archive raises nothing, and no file is opened for
    writing, no manifest dumped, nothing extracted. *)
Theorem non_digit_flag_stops_before_writing
    (path data_dir file_list_file : string) (w : World H) (ms : list TarInfo) :
  let r := tar_extractor_body H path data_dir file_list_file w in
  GetMembers (inr ms) ∈ trace r ->
  Exists (fun member => is_digit (type member) = false) ms ->
  existsb is_write (trace r) = false
  /\ (exists e, val r = inl e)
  /\ (TarExit None ∈ trace r -> exists msg, val r = inl (ValueError msg)).
Proof.
  cbn zeta. intros Hin Hex.
  pose proof (tar_extractor_follows_protocol H path data_dir file_list_file w) as Hp.
  cbn zeta in Hp.
  destruct (protocol_non_digit _ _ _ _ _ Hp ms Hin Hex) as (Hw & [e He] & Hexit).
  split; [exact Hw|].
  destruct (val (tar_extractor_body H path data_dir file_list_file w)) as [e'|[]];
    cbn in He, Hexit; [|discriminate He].
  split; [eauto|]. intros Hx. destruct (Hexit Hx) as [msg Hmsg].
  exists msg. congruence.
Qed.

(** X7. What [tar_extractor] opens it closes, on every way out: a run that
    opened the archive ends with the closing of the archive, and a run
    that opened the manifest file has closed it; a run that did not open
    them does not close them. *)
Theorem tar_extractor_closes_what_it_opens
    (path data_dir file_list_file : string) (w : World H) :
  let r := tar_extractor_body H path data_dir file_list_file w in
  (TarOpen path None ∈ trace r <-> exists x, last (trace r) = Some (TarExit x))
  /\ (OpenW file_list_file None ∈ trace r
      <-> exists c, FileExit file_list_file c ∈ trace r).
Proof.
  cbn zeta. eapply protocol_released, tar_extractor_follows_protocol.
Qed.

(** X8. An exception of [getmembers] is outside the [try] of
    [tar_extractor]: it comes out as it is, a [tarfile.ReadError] too,
    without the path in its message; the archive is closed, and an
    exception of the closing takes its place. Nothing is written. *)
Theorem getmembers_error_is_not_wrapped
    (path data_dir file_list_file : string) (w w1 w2 w3 : World H)
    (tar : TarFile H) (e : exn) (closed : exn + unit) :
  tarfile_open H path (print H "1: tar" w) = (inr tar, w1) ->
  getmembers H tar w1 = (inl e, w2) ->
  tarfile_exit H tar w2 = (closed, w3) ->
  tar_extractor_body H path data_dir file_list_file w
  = Run (match closed with inl x => inl x | inr _ => inl e end) w3
        [Print "1: tar"; TarOpen path None; GetMembers (inl e);
         TarExit (error_of closed)].
Proof.
  intros Hopen Hmem Hexit.
  unfold tar_extractor_body, bind, try_except, with_, host_call, do_print,
    lift, raise.
  rewrite Hopen. cbv beta iota. rewrite Hmem. cbv beta iota. rewrite Hexit.
  destruct closed as [x|[]]; reflexivity.
Qed.

End More_tar_extractor_facts.

Lemma non_digit_flag_stops_before_writing_witness :
  let w := RefHost.disk
             [("dl/old.tar", RefHost.File (RefHost.TarBytes RefHost.v7))] in
  let r := tar_extractor_body RefHost.host "dl/old.tar" "out" "files.json" w in
  GetMembers (inr RefHost.v7) ∈ trace r
  /\ Exists (fun member => is_digit (type member) = false) RefHost.v7
  /\ existsb is_write (trace r) = false
  /\ (exists e, val r = inl e)
  /\ (TarExit None ∈ trace r -> exists msg, val r = inl (ValueError msg)).
Proof.
  cbn zeta.
  assert (Hin : GetMembers (inr RefHost.v7)
                ∈ trace (tar_extractor_body RefHost.host "dl/old.tar" "out"
                           "files.json"
                           (RefHost.disk [("dl/old.tar",
                              RefHost.File (RefHost.TarBytes RefHost.v7))]))).
  { replace (trace _)
      with [Print "1: tar"; TarOpen "dl/old.tar" None;
            GetMembers (inr RefHost.v7); TarExit None]
      by (vm_compute; reflexivity).
    rewrite !elem_of_cons. right. right. left. reflexivity. }
  assert (Hex : Exists (fun member => is_digit (type member) = false) RefHost.v7)
    by (constructor; reflexivity).
  split; [exact Hin|]. split; [exact Hex|].
  exact (non_digit_flag_stops_before_writing RefHost.host "dl/old.tar" "out"
           "files.json" _ RefHost.v7 Hin Hex).
Defined.

Lemma getmembers_error_is_not_wrapped_witness :
  let w1 := print truncated_host "1: tar" RefHost.good in
  let e := ReadError "unexpected end of data" in
  tarfile_open truncated_host "dl/wiki.tar" w1 = (inr RefHost.corpus, w1)
  /\ getmembers truncated_host RefHost.corpus w1 = (inl e, w1)
  /\ tarfile_exit truncated_host RefHost.corpus w1 = (inr tt, w1)
  /\ tar_extractor_body truncated_host "dl/wiki.tar" "out" "files.json" RefHost.good
     = Run (inl e) w1
           [Print "1: tar"; TarOpen "dl/wiki.tar" None; GetMembers (inl e);
            TarExit None].
Proof.
  cbn zeta. split; [reflexivity|]. split; [reflexivity|]. split; [reflexivity|].
  exact (getmembers_error_is_not_wrapped truncated_host "dl/wiki.tar" "out"
           "files.json" RefHost.good _ _ _ RefHost.corpus
           (ReadError "unexpected end of data") (inr tt)
           eq_refl eq_refl eq_refl).
Defined.

(** ** More on the dispatcher *)

Section More_dispatcher_facts.

Context (H : Host).

(** The run of [extract_data_files], case by case: a hinted
    [tar_extractor] that returns, or a head of at most one failed attempt
    followed by the sweep, which [tar_extractor] decides. *)
Lemma extract_run (path data_dir file_list_file : string) (w : World H) :
  let tar_on := tar_extractor_body H path data_dir file_list_file in
  let r := extract_data_files H path data_dir file_list_file w in
  (hinted H path = Some (Some (tar_extractor H))
   /\ val (tar_on w) = inr tt
   /\ r = Run (inr tt) (world (tar_on w)) [record_of H (tar_extractor H) (tar_on w)])
  \/ exists head w0,
       ((hinted H path = None /\ head = [] /\ w0 = w)
        \/ (exists f, hinted H path = Some (Some f) /\ f ∈ stubs H
              /\ head = [refused H f] /\ w0 = w)
        \/ (hinted H path = Some (Some (tar_extractor H))
            /\ (exists e, val (tar_on w) = inl e)
            /\ head = [record_of H (tar_extractor H) (tar_on w)]
            /\ w0 = world (tar_on w)))
       /\ r = if succeeded (val (tar_on w0))
              then Run (inr tt) (world (tar_on w0))
                     (head ++ [record_of H (tar_extractor H) (tar_on w0)])
              else Run (inl unsupported) (world (tar_on w0))
                     (head ++ record_of H (tar_extractor H) (tar_on w0)
                           :: map (refused H) (stubs H)).
Proof.
  cbn zeta. set (args := [path; data_dir; file_list_file]).
  pose proof (sweep_run H path data_dir file_list_file) as Hsweep.
  cbn zeta in Hsweep.
  destruct (hinted_attempt_spec H path args w) as [[Hh Hr1]|(f & Hh & Hf & Hr1)].
  - right. exists [], w. split; [left; auto|].
    rewrite (extract_miss H path data_dir file_list_file w)
      by (fold args; now rewrite Hr1).
    fold args. rewrite Hr1. cbn [val world trace app]. rewrite Hsweep.
    now destruct (succeeded (val (tar_extractor_body H path data_dir
                                    file_list_file w))).
  - cbn zeta in Hr1. rewrite registry_values in Hf.
    apply elem_of_cons in Hf as [->|Hf].
    + unfold args in Hr1. rewrite call_tar in Hr1. fold args in Hr1.
      destruct (val (tar_extractor_body H path data_dir file_list_file w))
        as [e|[]] eqn:Ht; cbn [succeeded] in Hr1.
      * right. exists [record_of H (tar_extractor H)
                         (tar_extractor_body H path data_dir file_list_file w)],
                      (world (tar_extractor_body H path data_dir file_list_file w)).
        split; [right; right; eauto 6|].
        rewrite (extract_miss H path data_dir file_list_file w)
          by (fold args; now rewrite Hr1).
        fold args. rewrite Hr1. cbn [val world trace]. rewrite Hsweep.
        now destruct (succeeded (val (tar_extractor_body H path data_dir
               file_list_file (world (tar_extractor_body H path data_dir
                                        file_list_file w))))).
      * left. split; [exact Hh|]. split; [reflexivity|].
        rewrite (extract_hit H path data_dir file_list_file w)
          by (fold args; now rewrite Hr1).
        fold args. now rewrite Hr1.
    + unfold args in Hr1. rewrite (call_stub H f _ _ _ w Hf) in Hr1.
      cbn [val world succeeded] in Hr1. fold args in Hr1.
      right. exists [refused H f], w. split; [right; left; eauto|].
      rewrite (extract_miss H path data_dir file_list_file w)
        by (fold args; now rewrite Hr1).
      fold args. rewrite Hr1. cbn [val world trace]. rewrite Hsweep.
      now destruct (succeeded (val (tar_extractor_body H path data_dir
                                      file_list_file w))).
Qed.

(** X9. The three arguments keep their roles through the whole run,
    hinted attempt and sweep alike: the only path [tarfile.open] is called
    on is [path], the only file opened for writing, dumped to and closed
    is [file_list_file], the only directory extracted into is
    [data_dir]. *)
Theorem extract_keeps_arguments_in_role
    (path data_dir file_list_file : string) (w : World H) :
  let r := extract_data_files H path data_dir file_list_file w in
  Forall (fun a => Forall (in_role path data_dir file_list_file) (io a))
    (trace r).
Proof.
  cbn zeta.
  destruct (extract_log H path data_dir file_list_file w)
    as (head & tail & tried & rest & _ & _ & _ & _ & _ & Hmade & _).
  cbn zeta in Hmade. eapply Forall_impl; [exact Hmade|].
  intros a Ha. destruct (made_by_kinds H _ _ _ a Ha) as [[_ Hp]|(_ & -> & _)].
  - exact (protocol_roles _ _ _ _ _ Hp).
  - constructor.
Qed.

(** X10. The only line a run prints is ['1: tar'], once for each attempt
    of [tar_extractor]; the lines of the other four extractors never
    appear, their bodies are never entered. *)
Theorem extract_prints_one_line_per_tar_attempt
    (path data_dir file_list_file : string) (w : World H) :
  let r := extract_data_files H path data_dir file_list_file w in
  Forall (fun a => omap printed (io a)
                   = if String.eqb (callee a) "tar_extractor"
                     then ["1: tar"] else [])
    (trace r).
Proof.
  cbn zeta.
  destruct (extract_log H path data_dir file_list_file w)
    as (head & tail & tried & rest & _ & _ & _ & _ & _ & Hmade & _).
  cbn zeta in Hmade. eapply Forall_impl; [exact Hmade|].
  intros a Ha. destruct (made_by_kinds H _ _ _ a Ha) as [[-> Hp]|(Hc & -> & _)].
  - exact (protocol_prints _ _ _ _ _ Hp).
  - apply list_elem_of_fmap in Hc as (f & -> & Hf).
    destruct (String.eqb_spec (fn_name f) "tar_extractor") as [Heq|_];
      [|reflexivity].
    now destruct (stub_is_not_tar H f Hf).
Qed.

(** X11. No attempt writes before it has read: an attempt that opens the
    manifest file, dumps or extracts has opened the archive, enumerated
    it and converted every type flag first. A download [tarfile] cannot
    open, or cannot enumerate, or with a type flag that is no digit,
    leaves the disk as it was. *)
Theorem extract_writes_only_after_reading
    (path data_dir file_list_file : string) (w : World H) :
  let r := extract_data_files H path data_dir file_list_file w in
  Forall (fun a =>
            existsb is_write (io a) = true ->
            TarOpen path None ∈ io a
            /\ exists ms, GetMembers (inr ms) ∈ io a
                 /\ Forall (fun member => is_digit (type member) = true) ms)
    (trace r).
Proof.
  cbn zeta.
  destruct (extract_log H path data_dir file_list_file w)
    as (head & tail & tried & rest & _ & _ & _ & _ & _ & Hmade & _).
  cbn zeta in Hmade. eapply Forall_impl; [exact Hmade|].
  intros a Ha. destruct (made_by_kinds H _ _ _ a Ha) as [[_ Hp]|(_ & -> & _)].
  - exact (protocol_write_after_read _ _ _ _ _ Hp).
  - discriminate.
Qed.

(** X12. A run makes at least one attempt. One that returns made at most
    two; one that ends in the error made five when there was no hint and
    six when there was one. *)
Theorem extract_attempt_counts
    (path data_dir file_list_file : string) (w : World H) :
  let r := extract_data_files H path data_dir file_list_file w in
  1 <= length (trace r)
  /\ (val r = inr tt -> length (trace r) <= 2)
  /\ (val r = inl unsupported ->
      length (trace r) = match hinted H path with None => 5 | Some _ => 6 end).
Proof.
  cbn zeta.
  destruct (extract_run path data_dir file_list_file w)
    as [(Hh & _ & ->)|(head & w0 & Hhead & ->)].
  - rewrite Hh. cbn. repeat split; try lia. discriminate.
  - destruct (succeeded (val (tar_extractor_body H path data_dir
                                file_list_file w0)));
      cbn [val trace]; rewrite ?length_app; cbn [length map stubs];
      destruct Hhead as [(-> & -> & _)|[(f & -> & _ & -> & _)|(-> & _ & -> & _)]];
      cbn [length]; repeat split; intros; try lia; discriminate.
Qed.

(** X13. An archive under a name that does not say so: when the hint is
    missing or is one of the four other extractors and [tar_extractor]
    raises nothing on the download, the run returns from the first step of
    the sweep, leaves the world [tar_extractor] leaves, and has called no
    extractor after it. *)
Theorem mislabelled_archive_is_extracted
    (path data_dir file_list_file : string) (w : World H) :
  let t := tar_extractor_body H path data_dir file_list_file w in
  (hinted H path = None
   \/ exists f, hinted H path = Some (Some f) /\ f ∈ stubs H) ->
  val t = inr tt ->
  extract_data_files H path data_dir file_list_file w
  = Run (inr tt) (world t)
        (match hinted H path with
         | Some (Some f) => [refused H f]
         | _ => []
         end ++ [record_of H (tar_extractor H) t]).
Proof.
  cbn zeta. intros Hhint Ht.
  assert (Hnot : hinted H path <> Some (Some (tar_extractor H))).
  { destruct Hhint as [->|(f & -> & Hf)]; [discriminate|].
    intros Heq. injection Heq as ->. now apply (stub_is_not_tar H _ Hf). }
  destruct (extract_run path data_dir file_list_file w)
    as [(Hh & _)|(head & w0 & Hhead & ->)]; [congruence|].
  destruct Hhead as [(-> & -> & ->)|[(f & -> & _ & -> & ->)|(Hh & _)]];
    [| |congruence]; now rewrite Ht.
Qed.

End More_dispatcher_facts.

Lemma mislabelled_archive_is_extracted_witness :
  let t := tar_extractor_body RefHost.host "dl/wiki.zip" "out" "files.json"
             RefHost.mislabelled in
  (hinted RefHost.host "dl/wiki.zip" = None
   \/ exists f, hinted RefHost.host "dl/wiki.zip" = Some (Some f)
        /\ f ∈ stubs RefHost.host)
  /\ val t = inr tt
  /\ extract_data_files RefHost.host "dl/wiki.zip" "out" "files.json"
       RefHost.mislabelled
     = Run (inr tt) (world t)
           (match hinted RefHost.host "dl/wiki.zip" with
            | Some (Some f) => [refused RefHost.host f]
            | _ => []
            end ++ [record_of RefHost.host (tar_extractor RefHost.host) t]).
Proof.
  cbn zeta.
  assert (Hhint : hinted RefHost.host "dl/wiki.zip" = None
                  \/ exists f, hinted RefHost.host "dl/wiki.zip" = Some (Some f)
                       /\ f ∈ stubs RefHost.host).
  { right. exists (zip_extractor RefHost.host). split; [reflexivity|].
    apply elem_of_cons. now left. }
  assert (Ht : val (tar_extractor_body RefHost.host "dl/wiki.zip" "out"
                      "files.json" RefHost.mislabelled) = inr tt)
    by (vm_compute; reflexivity).
  split; [exact Hhint|]. split; [exact Ht|].
  exact (mislabelled_archive_is_extracted RefHost.host "dl/wiki.zip" "out"
           "files.json" RefHost.mislabelled Hhint Ht).
Defined.

(** ** Downloads that do not open *)

Section Unreadable.

Context (H : Host).

Lemma tar_open_failure_run (path data_dir file_list_file : string)
    (w : World H) (e : exn) :
  fst (tarfile_open H path (print H "1: tar" w)) = inl e ->
  let r := tar_extractor_body H path data_dir file_list_file w in
  (exists e', val r = inl e')
  /\ world r = snd (tarfile_open H path (print H "1: tar" w))
  /\ trace r = [Print "1: tar"; TarOpen path (Some e)].
Proof.
  intros Hopen. cbn zeta.
  unfold tar_extractor_body, bind, try_except, host_call, do_print, raise.
  destruct (tarfile_open H path (print H "1: tar" w)) as [v w1].
  cbn [fst snd] in *. subst v. cbn [error_of].
  destruct (is_ReadError e); cbn; eauto.
Qed.

(** X14. A download [tarfile.open] raises on, at the start and again after
    the first attempt, is rejected with the error of the dispatcher,
    whatever its name says, and no attempt of the run has opened a file
    for writing, dumped or extracted. *)
Theorem unreadable_download_is_rejected
    (path data_dir file_list_file : string) (w : World H) (e1 e2 : exn) :
  let t := tar_extractor_body H path data_dir file_list_file w in
  let r := extract_data_files H path data_dir file_list_file w in
  fst (tarfile_open H path (print H "1: tar" w)) = inl e1 ->
  fst (tarfile_open H path (print H "1: tar" (world t))) = inl e2 ->
  val r = inl unsupported
  /\ Forall (fun a => existsb is_write (io a) = false) (trace r).
Proof.
  cbn zeta. intros Hopen1 Hopen2.
  destruct (tar_open_failure_run path data_dir file_list_file w e1 Hopen1)
    as ([e Hv1] & _ & Ht1).
  destruct (tar_open_failure_run path data_dir file_list_file _ e2 Hopen2)
    as ([e' Hv2] & _ & Ht2).
  cbn zeta in *.
  assert (Hstubs : Forall (fun a => existsb is_write (io a) = false)
                     (map (refused H) (stubs H)))
    by (repeat constructor).
  destruct (extract_run H path data_dir file_list_file w)
    as [(_ & Hok & _)|(head & w0 & Hhead & ->)]; [congruence|].
  destruct Hhead as [(_ & -> & ->)|[(f & _ & _ & -> & ->)|(_ & _ & -> & ->)]];
    [rewrite Hv1|rewrite Hv1|rewrite Hv2]; cbn [succeeded val trace app];
    (split; [reflexivity|]);
    repeat (apply Forall_cons; split;
            [unfold record_of, refused; cbn [io]; rewrite ?Ht1, ?Ht2; reflexivity|]);
    first [exact Hstubs | constructor].
Qed.

(** X15. The world changes through [tar_extractor] only: the calls of the
    other four extractors leave it as it is, so a run leaves the world
    its first attempt of [tar_extractor] left, or the one left by the
    second attempt a hinted [tar_extractor] gets after it raised. *)
Theorem extract_changes_world_through_tar_only
    (path data_dir file_list_file : string) (w : World H) :
  let tar_on := tar_extractor_body H path data_dir file_list_file in
  let r := extract_data_files H path data_dir file_list_file w in
  world r = world (tar_on w)
  \/ (hinted H path = Some (Some (tar_extractor H))
      /\ (exists e, val (tar_on w) = inl e)
      /\ world r = world (tar_on (world (tar_on w)))).
Proof.
  cbn zeta.
  destruct (extract_run H path data_dir file_list_file w)
    as [(_ & _ & ->)|(head & w0 & Hhead & ->)]; [now left|].
  destruct Hhead as [(_ & _ & ->)|[(f & _ & _ & _ & ->)|(Hh & He & _ & ->)]].
  - left. now destruct (succeeded _).
  - left. now destruct (succeeded _).
  - right. split; [exact Hh|]. split; [exact He|]. now destruct (succeeded _).
Qed.

End Unreadable.

Lemma unreadable_download_is_rejected_witness :
  let e := ReadError "file could not be opened successfully" in
  let t := tar_extractor_body RefHost.host "dl/wiki.tar" "out" "files.json"
             RefHost.corrupt in
  let r := extract_data_files RefHost.host "dl/wiki.tar" "out" "files.json"
             RefHost.corrupt in
  fst (tarfile_open RefHost.host "dl/wiki.tar"
         (print RefHost.host "1: tar" RefHost.corrupt)) = inl e
  /\ fst (tarfile_open RefHost.host "dl/wiki.tar"
            (print RefHost.host "1: tar" (world t))) = inl e
  /\ val r = inl unsupported
  /\ Forall (fun a => existsb is_write (io a) = false) (trace r).
Proof.
  cbn zeta.
  assert (H1 : fst (tarfile_open RefHost.host "dl/wiki.tar"
                      (print RefHost.host "1: tar" RefHost.corrupt))
               = inl (ReadError "file could not be opened successfully"))
    by reflexivity.
  assert (H2 : fst (tarfile_open RefHost.host "dl/wiki.tar"
                      (print RefHost.host "1: tar"
                         (world (tar_extractor_body RefHost.host "dl/wiki.tar"
                                   "out" "files.json" RefHost.corrupt))))
               = inl (ReadError "file could not be opened successfully"))
    by (vm_compute; reflexivity).
  split; [exact H1|]. split; [exact H2|].
  exact (unreadable_download_is_rejected RefHost.host "dl/wiki.tar" "out"
           "files.json" RefHost.corrupt _ _ H1 H2).
Defined.
